(** * openshift-go-monolith: the request-counting and write-logging service

    A shallow embedding of [main.go]: the two process-wide counters, the
    environment lookup, the four HTTP handlers and the part of the Go
    runtime they call (time formatting, [path/filepath], the file system,
    [net/http]'s response writer), followed by the properties of the
    service. Requests are served one after the other. What the system and
    the runtime answer during a request (the clock, the host name, refusals
    of the file system) is an input of the request, and so is what they
    answer while the process starts. The logging middleware and the start-up
    of [main] come after the handlers; the mux and the file server of
    [net/http] are not modelled. *)

From Stdlib Require Import ZArith String Ascii List Lia Bool.
From stdpp Require Import base option gmap sets list strings.

Local Open Scope string_scope.
Local Open Scope Z_scope.

(** ** Go's [int64] *)

Module Int64.

Definition min_int : Z := - 2 ^ 63.
Definition max_int : Z := 2 ^ 63 - 1.

Definition in_range (x : Z) : Prop := min_int <= x <= max_int.

(** Two's complement wrap-around of a mathematical integer. *)
Definition wrap (x : Z) : Z := (x + 2 ^ 63) mod 2 ^ 64 - 2 ^ 63.

(** [a + b] on [int64], as [atomic.AddInt64] computes it. *)
Definition add (a b : Z) : Z := wrap (a + b).

End Int64.

(** ** [fmt] verbs and the integer printing of package [time] *)

Module Fmt.

(** The conversion [byte(x)], which keeps the low eight bits. *)
Definition byte (x : Z) : ascii := ascii_of_nat (Z.to_nat (x mod 256)).

(** The decimal digits of [u], the most significant first, in front of
    [acc]: the loop that fills a buffer from its end, one digit for each
    division by ten; [fuel] is the length of the buffer. *)
Fixpoint utod (fuel : nat) (u : Z) (acc : string) : string :=
  match fuel with
  | O => acc
  | S fuel' =>
      if u <? 10 then String (byte (48 + u)) acc
      else utod fuel' (u / 10) (String (byte (48 + u mod 10)) acc)
  end.

(** [%d] of an integer of at most 64 bits (twenty digits). *)
Definition d (x : Z) : string :=
  (if x <? 0 then "-" else "") +:+ utod 20 (Z.abs x) "".

Fixpoint zeros (n : nat) : string :=
  match n with
  | O => ""
  | S n' => String "0" (zeros n')
  end.

(** [time.appendInt]: the sign, then the digits padded with zeros to
    [width], with the short cuts for fields of two and of four digits. *)
Definition appendInt (x : Z) (width : nat) : string :=
  let u := Z.abs x in
  (if x <? 0 then "-" else "")
    +:+ (if (width =? 2)%nat && (u <? 100) then
           String (byte (48 + u / 10)) (String (byte (48 + u mod 10)) "")
         else if (width =? 4)%nat && (u <? 10000) then
           String (byte (48 + u / 100 / 10))
             (String (byte (48 + u / 100 mod 10))
                (String (byte (48 + u mod 100 / 10))
                   (String (byte (48 + u mod 100 mod 10)) "")))
         else
           let digits := utod 20 u "" in
           zeros (width - String.length digits) +:+ digits).

End Fmt.

(** ** [time.Time] and the two layouts the service formats with *)

Module GoTime.

(** A wall-clock reading, as [Time.Date], [Time.Clock] and [Time.Zone]
    present it in the local time zone. *)
Record Time := mkTime {
  year : Z;
  month : Z;
  day : Z;
  hour : Z;
  minute : Z;
  second : Z;
  zone_offset : Z  (* seconds east of UTC *)
}.

Definition valid (t : Time) : Prop :=
  0 <= year t <= 9999 /\ 1 <= month t <= 12 /\ 1 <= day t <= 31 /\
  0 <= hour t <= 23 /\ 0 <= minute t <= 59 /\ 0 <= second t <= 59.

(** The chunks [nextStdChunk] cuts a layout into. *)
Inductive Chunk :=
| stdLongYear       (* "2006" *)
| stdZeroMonth      (* "01" *)
| stdZeroDay        (* "02" *)
| stdHour           (* "15" *)
| stdZeroMinute     (* "04" *)
| stdZeroSecond     (* "05" *)
| stdISO8601ColonTZ (* "Z07:00" *)
| Lit (s : string).

Definition appendChunk (t : Time) (c : Chunk) : string :=
  match c with
  | stdLongYear => Fmt.appendInt (year t) 4
  | stdZeroMonth => Fmt.appendInt (month t) 2
  | stdZeroDay => Fmt.appendInt (day t) 2
  | stdHour => Fmt.appendInt (hour t) 2
  | stdZeroMinute => Fmt.appendInt (minute t) 2
  | stdZeroSecond => Fmt.appendInt (second t) 2
  | stdISO8601ColonTZ =>
      let offset := zone_offset t in
      if offset =? 0 then "Z"
      else
        let zone := Z.quot offset 60 in
        (if zone <? 0 then "-" else "+")
          +:+ Fmt.appendInt (Z.abs zone / 60) 2 +:+ ":"
          +:+ Fmt.appendInt (Z.abs zone mod 60) 2
  | Lit s => s
  end.

Fixpoint Format (t : Time) (layout : list Chunk) : string :=
  match layout with
  | [] => ""
  | c :: rest => appendChunk t c +:+ Format t rest
  end.

(** ["20060102-150405"], the layout of the log file names. *)
Definition layout_stamp : list Chunk :=
  [stdLongYear; stdZeroMonth; stdZeroDay; Lit "-";
   stdHour; stdZeroMinute; stdZeroSecond].

(** [time.RFC3339], ["2006-01-02T15:04:05Z07:00"]. *)
Definition RFC3339 : list Chunk :=
  [stdLongYear; Lit "-"; stdZeroMonth; Lit "-"; stdZeroDay; Lit "T";
   stdHour; Lit ":"; stdZeroMinute; Lit ":"; stdZeroSecond;
   stdISO8601ColonTZ].

End GoTime.

(** ** [path/filepath] on a slash-separated system *)

Module Filepath.

(** The pieces of [s] between occurrences of [sep]; [cur] is the piece
    being read. *)
Fixpoint split_on (sep : ascii) (cur s : string) : list string :=
  match s with
  | EmptyString => [cur]
  | String a s' =>
      if Ascii.eqb a sep then cur :: split_on sep "" s'
      else split_on sep (cur +:+ String a "") s'
  end.

(** One element of the path met while cleaning; [out] holds the elements
    kept so far, last one first. *)
Definition clean_step (rooted : bool) (out : list string) (elem : string)
  : list string :=
  if String.eqb elem "" then out
  else if String.eqb elem "." then out
  else if String.eqb elem ".." then
    match out with
    | top :: below =>
        if String.eqb top ".." then elem :: out else below
    | [] => if rooted then [] else [elem]
    end
  else elem :: out.

Definition is_rooted (path : string) : bool :=
  match path with
  | String "/" _ => true
  | _ => false
  end.

(** [filepath.Clean]: no empty, [.] or inner [..] elements; ["."] for the
    empty result. *)
Definition Clean (path : string) : string :=
  let rooted := is_rooted path in
  let elems := rev (fold_left (clean_step rooted) (split_on "/" "" path) []) in
  let body := String.concat "/" elems in
  if rooted then "/" +:+ body
  else if String.eqb body "" then "." else body.

(** [filepath.Join]: the non-empty elements, joined by a slash and
    cleaned. *)
Definition Join (elem : list string) : string :=
  match List.filter (fun e => negb (String.eqb e "")) elem with
  | [] => ""
  | nonempty => Clean (String.concat "/" nonempty)
  end.

(** Every ancestor of a cleaned path and the path itself, outermost
    first. *)
Fixpoint prefixes_from (base : string) (elems : list string) : list string :=
  match elems with
  | [] => []
  | e :: rest =>
      let p := if String.eqb base "" then e
               else if String.eqb base "/" then base +:+ e
               else base +:+ "/" +:+ e in
      p :: prefixes_from p rest
  end.

Definition ancestors (path : string) : list string :=
  let c := Clean path in
  prefixes_from (if is_rooted c then "/" else "")
    (List.filter (fun e => negb (String.eqb e ""))
       (split_on "/" "" c)).

End Filepath.

(** ** Package [os]: the environment, the host name and the file system *)

Module Os.

(** An error is represented by its message ([err.Error()]). *)
Definition error := string.

(** [os.Getenv]: the value of the variable, empty when it is not set. *)
Definition Getenv (environ : gmap string string) (key : string) : string :=
  default "" (environ !! key).

(** [os.Hostname]: the kernel answers with a name or with an error; on an
    error the name returned is empty. *)
Definition Hostname (answer : string + error) : string * option error :=
  match answer with
  | inl name => (name, None)
  | inr e => ("", Some e)
  end.

Definition O_WRONLY : Z := 1.
Definition O_CREATE : Z := 64.
Definition O_EXCL : Z := 128.
Definition O_TRUNC : Z := 512.
Definition O_APPEND : Z := 1024.

Definition has_flag (flag bit : Z) : bool := negb (Z.land flag bit =? 0).

(** The kernel's side of an open file. *)
Record Description := mkDescription {
  d_path : string;
  d_offset : nat;
  d_append : bool
}.

(** Directories and regular files by cleaned path, and the table of open
    descriptors. *)
Record FileSystem := mkFileSystem {
  dirs : gset string;
  files : gmap string string;
  fdtable : gmap nat Description
}.

(** An [os.File] in the hands of the program. *)
Record File := mkFile { fd : nat; name : string }.

Fixpoint mkdir_each (fault : string -> option error) (ps : list string)
  (fs : FileSystem) : FileSystem * option error :=
  match ps with
  | [] => (fs, None)
  | p :: rest =>
      if decide (p ∈ dirs fs) then mkdir_each fault rest fs
      else if decide (is_Some (files fs !! p)) then
        (fs, Some ("mkdir " +:+ p +:+ ": not a directory"))
      else
        match fault p with
        | Some e => (fs, Some ("mkdir " +:+ p +:+ ": " +:+ e))
        | None =>
            mkdir_each fault rest
              (mkFileSystem ({[p]} ∪ dirs fs) (files fs) (fdtable fs))
        end
  end.

(** [os.MkdirAll]: creates the directory and every missing parent, the
    outermost first; [fault p] is the error with which the system refuses
    to create [p], if it does. The error names the directory by its
    cleaned path, where [os.MkdirAll] names it as a prefix of [path]. *)
Definition MkdirAll (fault : string -> option error) (path : string)
  (fs : FileSystem) : FileSystem * option error :=
  mkdir_each fault (Filepath.ancestors path) fs.

(** The directory that holds the cleaned path [p]; none for a path of one
    element, which lies in the working directory or in the root. Paths
    that climb out of the working directory are not modelled. *)
Definition parent (p : string) : option string :=
  last (removelast (Filepath.ancestors p)).

(** [os.OpenFile]; [fault] is the error with which the system refuses the
    call (permissions, quota, ...), if it does. The directory that holds
    the file has to be there. *)
Definition OpenFile (fault : option error) (path : string) (flag : Z)
  (fs : FileSystem) : FileSystem * (File + error) :=
  let p := Filepath.Clean path in
  let opened (content : string) :=
    let n := fresh (dom (fdtable fs)) in
    (mkFileSystem (dirs fs) (<[p := content]> (files fs))
       (<[n := mkDescription p 0 (has_flag flag O_APPEND)]> (fdtable fs)),
     inl (mkFile n path)) in
  let in_directory :=
    if decide (p ∈ dirs fs) then
      (fs, inr ("open " +:+ path +:+ ": is a directory"))
    else
      match files fs !! p with
      | Some content =>
          if has_flag flag O_CREATE && has_flag flag O_EXCL then
            (fs, inr ("open " +:+ path +:+ ": file exists"))
          else opened (if has_flag flag O_TRUNC then "" else content)
      | None =>
          if has_flag flag O_CREATE then opened ""
          else (fs, inr ("open " +:+ path +:+ ": no such file or directory"))
      end in
  match fault with
  | Some e => (fs, inr ("open " +:+ path +:+ ": " +:+ e))
  | None =>
      match parent p with
      | None => in_directory
      | Some dir =>
          if decide (dir ∈ dirs fs) then in_directory
          else if decide (is_Some (files fs !! dir)) then
            (fs, inr ("open " +:+ path +:+ ": not a directory"))
          else (fs, inr ("open " +:+ path +:+ ": no such file or directory"))
      end
  end.

Fixpoint nuls (n : nat) : string :=
  match n with
  | O => ""
  | S n' => String "000" (nuls n')
  end.

(** The content of a file after [data] is written at offset [off]. *)
Definition write_at (old : string) (off : nat) (data : string) : string :=
  let stop := (off + String.length data)%nat in
  substring 0 off old +:+ nuls (off - String.length old) +:+ data
    +:+ substring stop (String.length old - stop) old.

(** [WriteString] on an [os.File]; with the fault [(k, e)] the system takes the
    first [k] bytes and then fails with [e]. *)
Definition WriteString (fault : option (nat * error)) (f : File)
  (data : string) (fs : FileSystem) : FileSystem * (nat * option error) :=
  match fdtable fs !! fd f with
  | None => (fs, (0%nat, Some ("write " +:+ name f +:+ ": file already closed")))
  | Some desc =>
      let n := match fault with
               | Some (k, _) => Nat.min k (String.length data)
               | None => String.length data
               end in
      let old := default "" (files fs !! d_path desc) in
      let off := if d_append desc then String.length old else d_offset desc in
      (mkFileSystem (dirs fs)
         (<[d_path desc := write_at old off (substring 0 n data)]> (files fs))
         (<[fd f := mkDescription (d_path desc) (off + n) (d_append desc)]>
            (fdtable fs)),
       (n, match fault with
           | Some (_, e) => Some ("write " +:+ name f +:+ ": " +:+ e)
           | None => None
           end))
  end.

(** [Close] on an [os.File] *)
Definition Close (f : File) (fs : FileSystem) : FileSystem * option error :=
  match fdtable fs !! fd f with
  | None => (fs, Some ("close " +:+ name f +:+ ": file already closed"))
  | Some _ =>
      (mkFileSystem (dirs fs) (files fs) (delete (fd f) (fdtable fs)), None)
  end.

(** The error of [os.Stat], by what [os.IsNotExist] makes of it. *)
Inductive StatError :=
| NotExist                  (* ENOENT *)
| OtherError (e : error).

Definition IsNotExist (err : option StatError) : bool :=
  match err with
  | Some NotExist => true
  | _ => false
  end.

(** [os.Stat], for its error: none when the path names a directory or a
    file, [ENOTDIR] when a file stands where a directory of the path should
    be, [ENOENT] when nothing has the name; [fault] is the error with which
    the system refuses the call, if it does. *)
Definition Stat (fault : option error) (path : string) (fs : FileSystem)
  : option StatError :=
  match fault with
  | Some e => Some (OtherError ("stat " +:+ path +:+ ": " +:+ e))
  | None =>
      let p := Filepath.Clean path in
      if existsb (fun q => bool_decide (is_Some (files fs !! q)))
           (removelast (Filepath.ancestors path))
      then Some (OtherError ("stat " +:+ path +:+ ": not a directory"))
      else if bool_decide (p ∈ dirs fs) || bool_decide (is_Some (files fs !! p))
      then None
      else Some NotExist
  end.

End Os.

(** ** Package [net/http]: requests and the response writer *)

Module Http.

Record Request := mkRequest {
  Method : string;
  URL_Path : string;
  RemoteAddr : string;
  UserAgent : string
}.

Definition StatusOK : Z := 200.
Definition StatusInternalServerError : Z := 500.

(** A JSON document; the encoder's output is kept as the document it
    encodes. *)
Inductive JsonValue :=
| JString (s : string)
| JNumber (n : Z)
| JTime (t : GoTime.Time).

(** The JSON object of a struct: its tagged fields in order. *)
Definition Json : Type := list (string * JsonValue).

Inductive Chunk :=
| Text (s : string)
| Document (j : Json).

(** What a handler has made of its [http.ResponseWriter]: the header map,
    the status line once it is written, and the body so far. *)
Record ResponseWriter := mkResponseWriter {
  header : gmap string string;
  status : option Z;
  body : list Chunk
}.

Definition fresh_writer : ResponseWriter := mkResponseWriter ∅ None [].

Definition Header_Set (key value : string) (w : ResponseWriter) : ResponseWriter :=
  mkResponseWriter (<[key := value]> (header w)) (status w) (body w).

Definition Header_Del (key : string) (w : ResponseWriter) : ResponseWriter :=
  mkResponseWriter (delete key (header w)) (status w) (body w).

(** [WriteHeader]: the first status written stands. *)
Definition WriteHeader (code : Z) (w : ResponseWriter) : ResponseWriter :=
  match status w with
  | Some _ => w
  | None => mkResponseWriter (header w) (Some code) (body w)
  end.

(** [Write]: writes the status 200 first when none was written. *)
Definition Write (c : Chunk) (w : ResponseWriter) : ResponseWriter :=
  let w' := WriteHeader StatusOK w in
  mkResponseWriter (header w') (status w') (body w' ++ [c]).

Definition nl : string := String "010" "".

(** [http.Error] *)
Definition Error (msg : string) (code : Z) (w : ResponseWriter) : ResponseWriter :=
  let w1 := Header_Del "Content-Length" w in
  let w2 := Header_Set "Content-Type" "text/plain; charset=utf-8" w1 in
  let w3 := Header_Set "X-Content-Type-Options" "nosniff" w2 in
  Write (Text (msg +:+ nl)) (WriteHeader code w3).

End Http.

(** ** [main.go] *)

Import GoTime Os Http.

Inductive Counter := RequestCount | WriteCount.

(** What a handler does to the outside, in program order, with what the
    system answered. *)
Inductive Event :=
| EvAdd (c : Counter)               (* atomic.AddInt64(&c, 1) *)
| EvLog (line : string)             (* logger.Printf *)
| EvMkdirAll (path : string) (err : option error)
| EvOpenFile (path : string) (flag : Z) (res : File + error)
| EvWriteString (file : File) (data : string) (res : nat * option error)
| EvClose (file : File).

(** The process: the package-level counters, the environment it was started
    with and the file system it runs on. *)
Record World := mkWorld {
  requestCount : Z;
  writeCount : Z;
  environ : gmap string string;
  filesys : FileSystem
}.

(** What the runtime and the system answer during one request. *)
Record Ambient := mkAmbient {
  now : nat -> Time;                 (* the k-th time.Now() of the request *)
  hostname_answer : string + error;  (* os.Hostname() *)
  uptime : string;   (* time.Since(startTime).Round(time.Second).String() *)
  go_version : string;               (* runtime.Version() *)
  num_goroutine : Z;                 (* runtime.NumGoroutine() *)
  mem_alloc : Z;                     (* runtime.MemStats.Alloc, in bytes *)
  mkdir_fault : string -> option error;
  open_fault : option error;
  write_fault : option (nat * error);
  marshal_fault : option error       (* json: the value cannot be encoded *)
}.

Record AppInfo := mkAppInfo {
  AppName : string;
  Env : string;
  DBUser : string;
  Version : string;
  Hostname : string;
  Timestamp : Time
}.

Record Stats := mkStats {
  Uptime : string;
  TotalRequests : Z;
  WriteOps : Z;
  GoVersion : string;
  NumGoroutines : Z;
  MemoryAllocMB : Z;
  ServerTime : string
}.

Definition AppInfo_json (i : AppInfo) : Json :=
  [("app_name", JString (AppName i)); ("environment", JString (Env i));
   ("db_user", JString (DBUser i)); ("version", JString (Version i));
   ("hostname", JString (Hostname i)); ("timestamp", JTime (Timestamp i))].

Definition Stats_json (st : Stats) : Json :=
  [("uptime", JString (Uptime st)); ("total_requests", JNumber (TotalRequests st));
   ("write_operations", JNumber (WriteOps st)); ("go_version", JString (GoVersion st));
   ("goroutines", JNumber (NumGoroutines st));
   ("memory_alloc_mb", JNumber (MemoryAllocMB st));
   ("server_time", JString (ServerTime st))].

(** *** The handler monad: the process and the response under construction *)

Record St := mkSt {
  world : World;
  writer : ResponseWriter;
  events : list Event   (* of the request being served *)
}.

Definition M (A : Type) : Type := St -> A * St.

#[global] Instance M_ret : MRet M := fun A (a : A) s => (a, s).
#[global] Instance M_bind : MBind M :=
  fun A B (k : A -> M B) (c : M A) s => let '(a, s1) := c s in k a s1.

Definition on_world {A} (f : World -> A * World) : M A :=
  fun s => let '(a, w) := f (world s) in (a, mkSt w (writer s) (events s)).

Definition on_writer (f : ResponseWriter -> ResponseWriter) : M unit :=
  fun s => (tt, mkSt (world s) (f (writer s)) (events s)).

Definition emit (e : Event) : M unit :=
  fun s => (tt, mkSt (world s) (writer s) (events s ++ [e])).

Definition with_filesys (fs : FileSystem) (w : World) : World :=
  mkWorld (requestCount w) (writeCount w) (environ w) fs.

Definition load (c : Counter) (w : World) : Z :=
  match c with
  | RequestCount => requestCount w
  | WriteCount => writeCount w
  end.

Definition store (c : Counter) (v : Z) (w : World) : World :=
  match c with
  | RequestCount => mkWorld v (writeCount w) (environ w) (filesys w)
  | WriteCount => mkWorld (requestCount w) v (environ w) (filesys w)
  end.

Definition atomic_AddInt64 (c : Counter) (delta : Z) : M unit :=
  on_world (fun w => (tt, store c (Int64.add (load c w) delta) w));;
  emit (EvAdd c).

Definition atomic_LoadInt64 (c : Counter) : M Z :=
  on_world (fun w => (load c w, w)).

Definition logger_Printf (line : string) : M unit := emit (EvLog line).

Definition os_MkdirAll (a : Ambient) (path : string) (perm : Z) : M (option error) :=
  err ← on_world (fun w =>
    let '(fs, err) := MkdirAll (mkdir_fault a) path (filesys w) in
    (err, with_filesys fs w));
  emit (EvMkdirAll path err);;
  mret err.

Definition os_OpenFile (a : Ambient) (path : string) (flag perm : Z) : M (File + error) :=
  res ← on_world (fun w =>
    let '(fs, res) := OpenFile (open_fault a) path flag (filesys w) in
    (res, with_filesys fs w));
  emit (EvOpenFile path flag res);;
  mret res.

Definition File_WriteString (a : Ambient) (f : File) (data : string)
  : M (nat * option error) :=
  res ← on_world (fun w =>
    let '(fs, res) := WriteString (write_fault a) f data (filesys w) in
    (res, with_filesys fs w));
  emit (EvWriteString f data res);;
  mret res.

Definition File_Close (f : File) : M unit :=
  on_world (fun w =>
    let '(fs, _) := Close f (filesys w) in
    (tt, with_filesys fs w));;
  emit (EvClose f).

(** [defer call]: [call] runs when the rest of the function returns, on
    whichever path it does. *)
Definition defer {A} (call : M unit) (rest : M A) : M A :=
  x ← rest; call;; mret x.

Definition http_Error (msg : string) (code : Z) : M unit :=
  on_writer (Http.Error msg code).

Definition w_Write (c : Http.Chunk) : M unit := on_writer (Http.Write c).

(** [json.NewEncoder(w).Encode(v)] *)
Definition json_Encode (a : Ambient) (doc : Json) : M (option error) :=
  match marshal_fault a with
  | Some e => mret (Some e)
  | None => w_Write (Document doc);; mret None
  end.

Definition os_Getenv (key : string) : M string :=
  on_world (fun w => (Getenv (environ w) key, w)).

Definition getEnvOrDefault (key defaultValue : string) : M string :=
  value ← os_Getenv key;
  if negb (String.eqb value "") then mret value else mret defaultValue.

Definition getMemoryUsageMB (a : Ambient) : Z := mem_alloc a / 1024 / 1024.

Definition unlines (ls : list string) : string :=
  String.concat "" (map (fun l => l +:+ nl) ls).

(** The lines of the report [writeHandler] writes, with the sixteen operands
    of its [Sprintf] in order. *)
Definition logContent_lines (timestamp : string) (opNumber : Z)
  (appName env hostname remoteAddr goVersion : string) (totalRequests : Z)
  (uptime : string) (opNumber2 goroutines memoryMB : Z)
  (method path userAgent remoteAddr2 : string) : list string :=
  [
   "========================================";
   "🚀 OpenShift Go Monolith - Volume Write Log";
   "========================================";
   "";
   "⏰ Timestamp:        " +:+ timestamp;
   "🔢 Operation Number: " +:+ Fmt.d opNumber;
   "📦 Application:      " +:+ appName;
   "🌍 Environment:      " +:+ env;
   "🏠 Hostname:         " +:+ hostname;
   "🌐 Client IP:        " +:+ remoteAddr;
   "🐹 Go Version:       " +:+ goVersion;
   "📊 Total Requests:   " +:+ Fmt.d totalRequests;
   "⏱️  Uptime:           " +:+ uptime;
   "";
   "========================================";
   "📝 Log Entry Details";
   "========================================";
   "";
   "This log file was created as part of write operation #" +:+ Fmt.d opNumber2
     +:+ ".";
   "The application successfully wrote data to the persistent volume.";
   "No cap, this is bussin fr fr! 💯";
   "";
   "🖥️  System Information:";
   "- Number of Goroutines: " +:+ Fmt.d goroutines;
   "- Memory Allocated: " +:+ Fmt.d memoryMB +:+ " MB";
   "- Status: Running smooth like butter 🧈";
   "";
   "📡 Request Information:";
   "- Method: " +:+ method;
   "- Path: " +:+ path;
   "- User Agent: " +:+ userAgent;
   "- Remote Address: " +:+ remoteAddr2;
   "";
   "💭 Vibes: Immaculate ✨";
   "🎯 Status: Mission accomplished, chief! ";
   "🔥 Performance: Absolutely slaying rn";
   "";
   "========================================";
   "✅ End of Log - Stay hydrated! 💧";
   "========================================"
  ].

Definition response_lines (filename : string) (opNumber : Z) (timestamp : string)
  (size : nat) (logDir : string) : list string :=
  ["✓ Data written to volume successfully";
   "";
   "📁 File: " +:+ filename;
   "🔢 Operation: #" +:+ Fmt.d opNumber;
   "⏰ Timestamp: " +:+ timestamp;
   "📏 Size: " +:+ Fmt.d (Z.of_nat size) +:+ " bytes";
   "";
   "📂 Log directory: " +:+ logDir;
   "";
   "💯 Status: Absolutely fire! No printer, just facts! 🔥"].

(** *** The handlers *)

Definition infoHandler (a : Ambient) (r : Request) : M unit :=
  atomic_AddInt64 RequestCount 1;;
  logger_Printf ("[INFO] 📊 Request received: " +:+ Method r +:+ " " +:+ URL_Path r
                   +:+ " from " +:+ RemoteAddr r);;
  hostname ← (match Os.Hostname (hostname_answer a) with
              | (_, Some err) =>
                  logger_Printf ("[WARN] ⚠️ Failed to get hostname: " +:+ err);;
                  mret "unknown"
              | (hostname, None) => mret hostname
              end);
  appName ← getEnvOrDefault "APP_NAME" "OpenShift Go Monolith";
  env ← getEnvOrDefault "APP_ENV" "development";
  dbUser ← getEnvOrDefault "DB_USER" "not_configured";
  let info := mkAppInfo appName env dbUser "1.1.0" hostname (now a 0) in
  logger_Printf ("[INFO] 📤 Sending app info response: AppName=" +:+ AppName info
                   +:+ ", Env=" +:+ Env info +:+ ", Hostname=" +:+ Hostname info);;
  on_writer (Header_Set "Content-Type" "application/json");;
  err ← json_Encode a (AppInfo_json info);
  match err with
  | Some err =>
      logger_Printf ("[ERROR] 💥 Failed to encode JSON response: " +:+ err);;
      http_Error "Internal server error" StatusInternalServerError
  | None =>
      logger_Printf "[INFO] ✅ App info request completed successfully - hits different!"
  end.

Definition writeHandler (a : Ambient) (r : Request) : M unit :=
  atomic_AddInt64 RequestCount 1;;
  atomic_AddInt64 WriteCount 1;;
  logger_Printf ("[INFO] 📝 Write request received: " +:+ Method r +:+ " "
                   +:+ URL_Path r +:+ " from " +:+ RemoteAddr r);;
  (* Create log directory if it doesn't exist *)
  let logDir := "./data/log" in
  logger_Printf ("[DEBUG] 🔍 Ensuring log directory exists: " +:+ logDir);;
  err ← os_MkdirAll a logDir 493 (* 0755 *);
  match err with
  | Some err =>
      logger_Printf ("[ERROR] 🚨 Failed to create log directory " +:+ logDir
                       +:+ ": " +:+ err);;
      http_Error ("Failed to create log directory: " +:+ err) StatusInternalServerError
  | None =>
      logger_Printf ("[DEBUG] ✅ Log directory ready: " +:+ logDir);;
      (* Create timestamped log file *)
      let timestamp := Format (now a 0) layout_stamp in
      let filename := timestamp +:+ "-log.txt" in
      let filepath := Filepath.Join [logDir; filename] in
      logger_Printf ("[INFO] 📄 Creating log file: " +:+ filepath);;
      opened ← os_OpenFile a filepath (Z.lor (Z.lor O_CREATE O_WRONLY) O_TRUNC)
                 420 (* 0644 *);
      match opened with
      | inr err =>
          logger_Printf ("[ERROR] 💥 Failed to create log file " +:+ filepath
                           +:+ ": " +:+ err);;
          http_Error ("Failed to create log file: " +:+ err) StatusInternalServerError
      | inl f =>
          defer (File_Close f) (
            let '(hostname, _) := Os.Hostname (hostname_answer a) in
            appName ← getEnvOrDefault "APP_NAME" "OpenShift Go Monolith";
            env ← getEnvOrDefault "APP_ENV" "development";
            opNumber ← atomic_LoadInt64 WriteCount;
            totalRequests ← atomic_LoadInt64 RequestCount;
            opNumber2 ← atomic_LoadInt64 WriteCount;
            let logContent :=
              unlines (logContent_lines
                (Format (now a 1) RFC3339) opNumber appName env hostname
                (RemoteAddr r) (go_version a) totalRequests (uptime a)
                opNumber2 (num_goroutine a) (getMemoryUsageMB a)
                (Method r) (URL_Path r) (UserAgent r) (RemoteAddr r)) in
            logger_Printf ("[DEBUG] 💾 Writing "
                             +:+ Fmt.d (Z.of_nat (String.length logContent))
                             +:+ " bytes to log file");;
            written ← File_WriteString a f logContent;
            match written with
            | (_, Some err) =>
                logger_Printf ("[ERROR] 😱 Failed to write content to log file "
                                 +:+ filepath +:+ ": " +:+ err);;
                http_Error ("Failed to write log content: " +:+ err)
                  StatusInternalServerError
            | (_, None) =>
                logger_Printf ("[INFO] 🎉 Successfully wrote log file: " +:+ filepath
                                 +:+ " - it's giving main character energy!");;
                opNumber3 ← atomic_LoadInt64 WriteCount;
                let response :=
                  String.concat nl (response_lines filename opNumber3
                    (Format (now a 2) RFC3339) (String.length logContent) logDir) in
                logger_Printf "[INFO] ✨ Write operation completed successfully - we're so back!";;
                w_Write (Text response)
            end)
      end
  end.

Definition healthHandler (a : Ambient) (r : Request) : M unit :=
  atomic_AddInt64 RequestCount 1;;
  logger_Printf ("[INFO] ❤️ Health check request from " +:+ RemoteAddr r
                   +:+ " - checking the vibes...");;
  w_Write (Text "OK");;
  logger_Printf "[DEBUG] 💚 Health check response sent - we're thriving!".

Definition statsHandler (a : Ambient) (r : Request) : M unit :=
  atomic_AddInt64 RequestCount 1;;
  logger_Printf ("[INFO] 📈 Stats request received: " +:+ Method r +:+ " "
                   +:+ URL_Path r +:+ " from " +:+ RemoteAddr r);;
  totalRequests ← atomic_LoadInt64 RequestCount;
  writeOps ← atomic_LoadInt64 WriteCount;
  let stats := mkStats (uptime a) totalRequests writeOps (go_version a)
                 (num_goroutine a) (getMemoryUsageMB a) (Format (now a 0) RFC3339) in
  logger_Printf ("[DEBUG] 📊 Stats collected: Uptime=" +:+ Uptime stats
                   +:+ ", Requests=" +:+ Fmt.d (TotalRequests stats)
                   +:+ ", WriteOps=" +:+ Fmt.d (WriteOps stats)
                   +:+ ", Memory=" +:+ Fmt.d (MemoryAllocMB stats)
                   +:+ "MB - looking good!");;
  on_writer (Header_Set "Content-Type" "application/json");;
  err ← json_Encode a (Stats_json stats);
  match err with
  | Some err =>
      logger_Printf ("[ERROR] 😱 Failed to encode stats JSON: " +:+ err);;
      http_Error "Internal server error" StatusInternalServerError
  | None =>
      logger_Printf "[INFO] ✨ Stats request completed successfully - data is immaculate!"
  end.

(** The routes of [main]'s mux that lead to a handler of this file. *)
Inductive Route := ApiInfo | ApiWrite | ApiStats | Health.

Definition handler (rt : Route) : Ambient -> Request -> M unit :=
  match rt with
  | ApiInfo => infoHandler
  | ApiWrite => writeHandler
  | ApiStats => statsHandler
  | Health => healthHandler
  end.

(** One request served from the process state [w]: the state afterwards,
    the response and the events of the request. *)
Definition serve (rt : Route) (a : Ambient) (r : Request) (w : World) : St :=
  snd (handler rt a r (mkSt w fresh_writer [])).

(** *** The middleware and the requests of a run *)

(** [loggingMiddleware(next)]: the request line, the wrapped handler, the
    completion line; [duration] is [time.Since(start)] as [%v] prints it. *)
Definition loggingMiddleware (next : Ambient -> Request -> M unit) (duration : string)
  (a : Ambient) (r : Request) : M unit :=
  logger_Printf ("[REQUEST] 🌐 " +:+ Method r +:+ " " +:+ URL_Path r +:+ " from "
                   +:+ RemoteAddr r +:+ " - User-Agent: " +:+ UserAgent r);;
  next a r;;
  logger_Printf ("[RESPONSE] ⚡ " +:+ Method r +:+ " " +:+ URL_Path r
                   +:+ " completed in " +:+ duration +:+ " - speedrun any%").

(** A request as the server receives it: the handler it is routed to, what
    the system answers while it is served, and the request. *)
Record Call := mkCall {
  route : Route;
  ambient : Ambient;
  request : Request
}.

(** The process after the calls were served one after the other. *)
Fixpoint serve_all (calls : list Call) (w : World) : World :=
  match calls with
  | [] => w
  | c :: rest => serve_all rest (world (serve (route c) (ambient c) (request c) w))
  end.

(** *** The start of the process *)

(** What the system answers while the process starts. *)
Record Boot := mkBoot {
  dotenv : gmap string string + error;  (* the variables of .env, or the
                                           error of godotenv.Load() *)
  goos : string;                        (* runtime.GOOS *)
  goarch : string;                      (* runtime.GOARCH *)
  num_cpu : Z;                          (* runtime.NumCPU() *)
  stat_fault : option error;            (* os.Stat is refused *)
  listen_error : option error   (* what http.ListenAndServe returns, once
                                   it does *)
}.

(** [godotenv.Load()]: sets the variables of [.env] that the environment
    does not have; nothing is set when the file cannot be read. *)
Definition godotenv_Load (b : Boot) : M (option error) :=
  match dotenv b with
  | inl vars =>
      on_world (fun w =>
        (None, mkWorld (requestCount w) (writeCount w) (environ w ∪ vars) (filesys w)))
  | inr e => mret (Some e)
  end.

Definition os_Stat (b : Boot) (path : string) : M (option StatError) :=
  on_world (fun w => (Stat (stat_fault b) path (filesys w), w)).

Definition logger_Println (line : string) : M unit := emit (EvLog line).

Definition initLogger : M unit :=
  logger_Println "[INIT] 🎯 Logger initialized with detailed output - let's get this bread!".

(** [main] up to the return of [http.ListenAndServe]: the status with which
    the process exits, if it does. *)
Definition main (b : Boot) (a : Ambient) : M (option Z) :=
  (* Initialize logger first *)
  initLogger;;
  (* Load .env file *)
  err ← godotenv_Load b;
  match err with
  | Some err =>
      logger_Printf ("[WARN] ⚠️ No .env file found or error loading it: " +:+ err);;
      logger_Println "[INFO] 📝 Using system environment variables or defaults"
  | None => logger_Println "[INFO] ✅ Successfully loaded .env file"
  end;;
  logger_Println "========================================";;
  logger_Println "🚀 OpenShift Go Monolith Server";;
  logger_Println "========================================";;
  logger_Printf "[INIT] 💫 Version: 1.1.0";;
  logger_Printf ("[INIT] 🐹 Go Version: " +:+ go_version a);;
  logger_Printf ("[INIT] 💻 OS/Arch: " +:+ goos b +:+ "/" +:+ goarch b);;
  logger_Printf ("[INIT] ⚡ CPUs: " +:+ Fmt.d (num_cpu b));;
  logger_Printf ("[INIT] ⏰ Started at: " +:+ Format (now a 0) RFC3339);;
  (* Log environment variables *)
  appName ← getEnvOrDefault "APP_NAME" "not set";
  logger_Printf ("[CONFIG] 📦 APP_NAME: " +:+ appName);;
  env ← getEnvOrDefault "APP_ENV" "not set";
  logger_Printf ("[CONFIG] 🌍 APP_ENV: " +:+ env);;
  dbUser ← getEnvOrDefault "DB_USER" "not set";
  logger_Printf ("[CONFIG] 👤 DB_USER: " +:+ dbUser);;
  match Os.Hostname (hostname_answer a) with
  | (_, Some err) => logger_Printf ("[WARN] ⚠️ Failed to get hostname: " +:+ err)
  | (hostname, None) => logger_Printf ("[CONFIG] 🏠 Hostname: " +:+ hostname)
  end;;
  (* Check data directory *)
  let dataDir := "./data/log" in
  err ← os_Stat b dataDir;
  (if IsNotExist err then
     logger_Printf ("[WARN] 📁 Data directory " +:+ dataDir
                      +:+ " does not exist, will be created on first write")
   else
     logger_Printf ("[INFO] ✅ Data directory " +:+ dataDir
                      +:+ " exists and is accessible"));;
  (* Setup routes with logging middleware *)
  logger_Println "[INIT] 🔧 Registering HTTP handlers...";;
  logger_Println "[INIT] 🛣️ Routes registered:";;
  logger_Println "[INIT]   📄 GET  /              - Static files";;
  logger_Println "[INIT]   📊 GET  /api/info      - Application info";;
  logger_Println "[INIT]   💾 POST /api/write     - Write volume data";;
  logger_Println "[INIT]   📈 GET  /api/stats     - Application statistics";;
  logger_Println "[INIT]   ❤️ GET  /health        - Health check";;
  logger_Println "========================================";;
  logger_Printf "[INIT] 🎧 Server listening on :8080";;
  logger_Println "[INIT] ✨ Ready to accept connections - let's goooo!";;
  logger_Println "========================================";;
  match listen_error b with
  | Some err =>
      logger_Printf ("[FATAL] 💀 Server failed to start: " +:+ err);;
      mret (Some 1) (* os.Exit(1) *)
  | None => mret None
  end.

(** The process started from [w]: its exit status, if it exits, and its
    state when it listens. *)
Definition start (b : Boot) (a : Ambient) (w : World) : option Z * St :=
  main b a (mkSt w fresh_writer []).

(** ** Vocabulary of the properties *)

(** A file-system call of the request that returned an error. *)
Definition io_failed (e : Event) : bool :=
  match e with
  | EvMkdirAll _ (Some _) => true
  | EvOpenFile _ _ (inr _) => true
  | EvWriteString _ _ (_, Some _) => true
  | _ => false
  end.

(** The directory or the file could not be created. *)
Definition create_failed (e : Event) : bool :=
  match e with
  | EvMkdirAll _ (Some _) => true
  | EvOpenFile _ _ (inr _) => true
  | _ => false
  end.

Definition is_add (e : Event) : bool :=
  match e with
  | EvAdd _ => true
  | _ => false
  end.

(** A call into the file system. *)
Definition is_io (e : Event) : bool :=
  match e with
  | EvMkdirAll _ _ | EvOpenFile _ _ _ | EvWriteString _ _ _ | EvClose _ => true
  | _ => false
  end.

(** [new] is the counter [old] after one [atomic.AddInt64(&c, 1)]: the sum
    on [int64], which is [old + 1] below the largest [int64]. *)
Definition incremented (old new : Z) : Prop :=
  new = Int64.add old 1 /\
  (Int64.in_range old -> old < Int64.max_int -> new = old + 1).

(** The process [w] started with the environment [env] instead. *)
Definition with_environ (env : gmap string string) (w : World) : World :=
  mkWorld (requestCount w) (writeCount w) env (filesys w).

(** The system refuses nothing during the request. *)
Definition no_faults (a : Ambient) : Prop :=
  (forall p, mkdir_fault a p = None) /\ open_fault a = None /\ write_fault a = None.

(** What [getEnvOrDefault] returns in a process started with the
    environment [env]. *)
Definition resolve (env : gmap string string) (key defaultValue : string) : string :=
  fst (getEnvOrDefault key defaultValue
         (mkSt (mkWorld 0 0 env (mkFileSystem ∅ ∅ ∅)) fresh_writer [])).

(** The flags with which [writeHandler] opens the log file. *)
Definition create_trunc : Z := Z.lor (Z.lor O_CREATE O_WRONLY) O_TRUNC.

(** The name and the path of the log file of a write request. *)
Definition log_name (a : Ambient) : string :=
  Format (now a 0) layout_stamp +:+ "-log.txt".

Definition log_path (a : Ambient) : string := "data/log/" +:+ log_name a.

(** The lines of the report of a write request served from the process [w],
    with [hostname] for the host. *)
Definition report_lines (hostname : string) (a : Ambient) (r : Request) (w : World)
  : list string :=
  let opNumber := Int64.add (writeCount w) 1 in
  logContent_lines (Format (now a 1) RFC3339) opNumber
    (resolve (environ w) "APP_NAME" "OpenShift Go Monolith")
    (resolve (environ w) "APP_ENV" "development")
    hostname (RemoteAddr r) (go_version a) (Int64.add (requestCount w) 1) (uptime a)
    opNumber (num_goroutine a) (getMemoryUsageMB a)
    (Method r) (URL_Path r) (UserAgent r) (RemoteAddr r).

Definition report (a : Ambient) (r : Request) (w : World) : string :=
  unlines (report_lines (fst (Os.Hostname (hostname_answer a))) a r w).

(** [sub] occurs in [s]. *)
Definition contains (sub s : string) : Prop :=
  exists before after, s = before +:+ sub +:+ after.

Fixpoint no_slash (s : string) : bool :=
  match s with
  | EmptyString => true
  | String c s' => negb (Ascii.eqb c "/") && no_slash s'
  end.

(** The spec's words for the time stamp, YYYYMMDD-HHMMSS: the decimal digits
    of each field, most significant first. *)
Definition digit (n : Z) : ascii := ascii_of_nat (48 + Z.to_nat (n mod 10)).

Definition digits2 (n : Z) : string :=
  String (digit (n / 10)) (String (digit n) "").

Definition digits4 (n : Z) : string :=
  String (digit (n / 1000)) (String (digit (n / 100)) (digits2 n)).

Definition YYYYMMDD_HHMMSS (t : Time) : string :=
  digits4 (year t) +:+ digits2 (month t) +:+ digits2 (day t) +:+ "-"
    +:+ digits2 (hour t) +:+ digits2 (minute t) +:+ digits2 (second t).

Definition is_digit (c : ascii) : bool :=
  (48 <=? nat_of_ascii c)%nat && (nat_of_ascii c <=? 57)%nat.

(** The pattern of a log file name: eight digits, a dash, six digits and
    the suffix. *)
Definition matches_stamp_pattern (name : string) : bool :=
  match list_ascii_of_string name with
  | y1 :: y2 :: y3 :: y4 :: m1 :: m2 :: d1 :: d2 :: dash
      :: h1 :: h2 :: n1 :: n2 :: s1 :: s2 :: suffix =>
      forallb is_digit [y1; y2; y3; y4; m1; m2; d1; d2; h1; h2; n1; n2; s1; s2]
        && Ascii.eqb dash "-"
        && String.eqb (string_of_list_ascii suffix) "-log.txt"
  | _ => false
  end.

(** The calls that go to the write handler. *)
Definition is_write (c : Call) : bool :=
  match route c with
  | ApiWrite => true
  | _ => false
  end.

(** The handlers that answer with a JSON document. *)
Definition encodes (rt : Route) : bool :=
  match rt with
  | ApiInfo | ApiStats => true
  | ApiWrite | Health => false
  end.

(** The date and the time of day of a clock reading, to the second. *)
Definition wall_clock (t : Time) : Z * Z * Z * Z * Z * Z :=
  (year t, month t, day t, hour t, minute t, second t).

(** Whether the system lets a write request through: the directory can be
    made, the log file can be opened and the write is taken whole. *)
Definition volume_accepts (a : Ambient) (w : World) : bool :=
  match MkdirAll (mkdir_fault a) "./data/log" (filesys w) with
  | (fs1, None) =>
      match OpenFile (open_fault a) (log_path a) create_trunc fs1, write_fault a with
      | (_, inl _), None => true
      | _, _ => false
      end
  | (_, Some _) => false
  end.

(** Whether the log file of a write request gets opened. *)
Definition log_file_opened (a : Ambient) (w : World) : bool :=
  match MkdirAll (mkdir_fault a) "./data/log" (filesys w) with
  | (fs1, None) =>
      match OpenFile (open_fault a) (log_path a) create_trunc fs1 with
      | (_, inl _) => true
      | (_, inr _) => false
      end
  | (_, Some _) => false
  end.

(** The environment with which the process listens. *)
Definition environ_loaded (b : Boot) (w : World) : gmap string string :=
  match dotenv b with
  | inl vars => environ w ∪ vars
  | inr _ => environ w
  end.

(** A regular file stands where [data] or [data/log] should be. *)
Definition file_in_the_way (fs : FileSystem) : Prop :=
  (("data" ∉ dirs fs) /\ is_Some (files fs !! "data")) \/
  ("data" ∈ dirs fs /\ ("data/log" ∉ dirs fs) /\ is_Some (files fs !! "data/log")).

(** The calls of two write handlers into the file system when they
    overlap: each opens the log file (main.go:99), writes its report
    (main.go:173) and closes the file (main.go:105), and the second handler
    opens before the first has written. The system refuses nothing. *)
Definition overlapped_writes (path report1 report2 : string) (fs : FileSystem)
  : FileSystem :=
  let '(fs, _) := MkdirAll (fun _ => None) "./data/log" fs in
  match OpenFile None path create_trunc fs with
  | (fs, inl f1) =>
      match OpenFile None path create_trunc fs with
      | (fs, inl f2) =>
          let '(fs, _) := WriteString None f1 report1 fs in
          let '(fs, _) := WriteString None f2 report2 fs in
          let '(fs, _) := Close f1 fs in
          fst (Close f2 fs)
      | (fs, inr _) => fs
      end
  | (fs, inr _) => fs
  end.

(** ** Sample inputs *)

Definition with_hostname_answer (answer : string + error) (a : Ambient) : Ambient :=
  mkAmbient (now a) answer (uptime a) (go_version a) (num_goroutine a) (mem_alloc a)
    (mkdir_fault a) (open_fault a) (write_fault a) (marshal_fault a).

Definition with_mkdir_fault (fault : string -> option error) (a : Ambient) : Ambient :=
  mkAmbient (now a) (hostname_answer a) (uptime a) (go_version a) (num_goroutine a)
    (mem_alloc a) fault (open_fault a) (write_fault a) (marshal_fault a).

Definition with_write_fault (fault : option (nat * error)) (a : Ambient) : Ambient :=
  mkAmbient (now a) (hostname_answer a) (uptime a) (go_version a) (num_goroutine a)
    (mem_alloc a) (mkdir_fault a) (open_fault a) fault (marshal_fault a).

Definition sample_time : Time := mkTime 2024 3 9 7 5 1 0.

Definition sample_request : Request :=
  mkRequest "POST" "/api/write" "10.0.0.1:5555" "curl/8.5.0".

(** A system that refuses nothing. *)
Definition calm : Ambient :=
  mkAmbient (fun _ => sample_time) (inl "pod-1") "5s" "go1.22.1" 4 (5 * 1024 * 1024)
    (fun _ => None) None None None.

(** The volume is mounted read-only. *)
Definition read_only : Ambient :=
  with_mkdir_fault (fun _ => Some "permission denied") calm.

(** The volume fills up ten bytes into the write. *)
Definition disk_full : Ambient :=
  with_write_fault (Some (10%nat, "no space left on device")) calm.

(** The kernel does not tell the host name. *)
Definition nameless : Ambient :=
  with_hostname_answer (inr "open /proc/sys/kernel/hostname: permission denied") calm.

(** A process that has just started on an empty volume. *)
Definition fresh_world : World := mkWorld 0 0 ∅ (mkFileSystem ∅ ∅ ∅).

(** The same, started with an environment that names other directories. *)
Definition configured_world : World :=
  mkWorld 0 0
    (<["LOG_DIR" := "/var/log/app"]> (<["DATA_DIR" := "/mnt/volume"]>
       (<["APP_ENV" := "production"]> ∅)))
    (mkFileSystem ∅ ∅ ∅).

Definition second_request : Request :=
  mkRequest "POST" "/api/write" "10.0.0.2:6001" "Mozilla/5.0".

(** The same system one second later. *)
Definition a_second_later : Ambient :=
  mkAmbient (fun _ => mkTime 2024 3 9 7 5 2 0) (inl "pod-1") "6s" "go1.22.1" 4
    (5 * 1024 * 1024) (fun _ => None) None None None.

(** Five requests, two of them writes, the first on a read-only volume. *)
Definition sample_calls : list Call :=
  [mkCall ApiWrite read_only sample_request;
   mkCall ApiInfo calm sample_request;
   mkCall ApiStats calm sample_request;
   mkCall Health calm sample_request;
   mkCall ApiWrite calm second_request].

(** A volume on which [data] is a regular file. *)
Definition blocked_world : World :=
  mkWorld 0 0 ∅ (mkFileSystem ∅ {["data" := "not a directory"]} ∅).

(** The counters when one write request has been counted and the next one
    is about to be. *)
Definition one_counted : World := mkWorld 1 1 ∅ (mkFileSystem ∅ ∅ ∅).

(** The four ways through [writeHandler], with what each leaves. *)
Inductive WriteRun (a : Ambient) (r : Request) (w : World) (s : St) : Prop :=
| MkdirFailed fs1 e :
    MkdirAll (mkdir_fault a) "./data/log" (filesys w) = (fs1, Some e) ->
    filesys (world s) = fs1 ->
    writer s = Http.Error ("Failed to create log directory: " +:+ e)
                 StatusInternalServerError fresh_writer ->
    List.filter is_io (events s) = [EvMkdirAll "./data/log" (Some e)] ->
    WriteRun a r w s
| OpenFailed fs1 fs2 e :
    MkdirAll (mkdir_fault a) "./data/log" (filesys w) = (fs1, None) ->
    OpenFile (open_fault a) (log_path a) create_trunc fs1 = (fs2, inr e) ->
    filesys (world s) = fs2 ->
    writer s = Http.Error ("Failed to create log file: " +:+ e)
                 StatusInternalServerError fresh_writer ->
    List.filter is_io (events s) =
      [EvMkdirAll "./data/log" None;
       EvOpenFile (log_path a) create_trunc (inr e)] ->
    WriteRun a r w s
| WriteFailed fs1 fs2 f fs3 n e :
    MkdirAll (mkdir_fault a) "./data/log" (filesys w) = (fs1, None) ->
    OpenFile (open_fault a) (log_path a) create_trunc fs1 = (fs2, inl f) ->
    WriteString (write_fault a) f (report a r w) fs2 = (fs3, (n, Some e)) ->
    filesys (world s) = fst (Close f fs3) ->
    writer s = Http.Error ("Failed to write log content: " +:+ e)
                 StatusInternalServerError fresh_writer ->
    List.filter is_io (events s) =
      [EvMkdirAll "./data/log" None;
       EvOpenFile (log_path a) create_trunc (inl f);
       EvWriteString f (report a r w) (n, Some e);
       EvClose f] ->
    WriteRun a r w s
| Written fs1 fs2 f fs3 n :
    MkdirAll (mkdir_fault a) "./data/log" (filesys w) = (fs1, None) ->
    OpenFile (open_fault a) (log_path a) create_trunc fs1 = (fs2, inl f) ->
    WriteString (write_fault a) f (report a r w) fs2 = (fs3, (n, None)) ->
    filesys (world s) = fst (Close f fs3) ->
    writer s = Http.Write
                 (Text (String.concat nl
                    (response_lines (log_name a) (Int64.add (writeCount w) 1)
                       (Format (now a 2) RFC3339)
                       (String.length (report a r w)) "./data/log")))
                 fresh_writer ->
    List.filter is_io (events s) =
      [EvMkdirAll "./data/log" None;
       EvOpenFile (log_path a) create_trunc (inl f);
       EvWriteString f (report a r w) (n, None);
       EvClose f] ->
    WriteRun a r w s.

(** * Properties *)

(** ** Strings *)

Section StringFacts.

Lemma append_cons (c : ascii) (s t : string) : String c s +:+ t = String c (s +:+ t).
Proof. reflexivity. Qed.

Lemma append_nil_l (t : string) : "" +:+ t = t.
Proof. reflexivity. Qed.

Lemma append_nil_r (s : string) : s +:+ "" = s.
Proof.
  induction s as [|c s IH]; [reflexivity|].
  rewrite append_cons. f_equal. exact IH.
Qed.

Lemma append_assoc (s1 s2 s3 : string) : (s1 +:+ s2) +:+ s3 = s1 +:+ s2 +:+ s3.
Proof.
  induction s1 as [|c s1 IH]; [reflexivity|].
  rewrite !append_cons. simpl. f_equal. exact IH.
Qed.

Lemma length_append (s1 s2 : string) :
  String.length (s1 +:+ s2) = (String.length s1 + String.length s2)%nat.
Proof.
  induction s1 as [|c s1 IH]; [reflexivity|].
  rewrite !append_cons. simpl. f_equal. exact IH.
Qed.

Lemma substring_empty (n m : nat) : substring n m "" = "".
Proof. destruct n, m; reflexivity. Qed.

Lemma substring_all (s : string) : substring 0 (String.length s) s = s.
Proof. induction s as [|c s IH]; simpl; [reflexivity | f_equal; exact IH]. Qed.

Lemma no_slash_append (s1 s2 : string) :
  no_slash (s1 +:+ s2) = no_slash s1 && no_slash s2.
Proof.
  induction s1 as [|c s1 IH]; [reflexivity|].
  rewrite append_cons. simpl. rewrite <- andb_assoc. f_equal. exact IH.
Qed.

Lemma eqb_short (s t : string) :
  (String.length t < String.length s)%nat -> String.eqb s t = false.
Proof.
  intros Hlen. apply String.eqb_neq. intros ->. lia.
Qed.

End StringFacts.

Section FmtFacts.

Lemma below_ten (k : Z) :
  0 <= k < 10 ->
  k = 0 \/ k = 1 \/ k = 2 \/ k = 3 \/ k = 4 \/ k = 5 \/ k = 6 \/ k = 7 \/ k = 8 \/ k = 9.
Proof. lia. Qed.

Lemma byte_digit (k : Z) : 0 <= k < 10 -> Fmt.byte (48 + k) = digit k.
Proof.
  intros Hk. apply below_ten in Hk.
  repeat (destruct Hk as [-> | Hk]; [reflexivity|]). subst k. reflexivity.
Qed.

Lemma digit_mod (n m : Z) : n mod 10 = m mod 10 -> digit n = digit m.
Proof. unfold digit. now intros ->. Qed.

Lemma byte_not_slash (k : Z) :
  0 <= k < 10 -> Ascii.eqb (Fmt.byte (48 + k)) "/" = false.
Proof.
  intros Hk. apply below_ten in Hk.
  repeat (destruct Hk as [-> | Hk]; [reflexivity|]). subst k. reflexivity.
Qed.

Lemma no_slash_utod (fuel : nat) (u : Z) (acc : string) :
  0 <= u -> no_slash (Fmt.utod fuel u acc) = no_slash acc.
Proof.
  revert u acc. induction fuel as [|fuel IH]; intros u acc Hu; [reflexivity|].
  cbn [Fmt.utod]. destruct (u <? 10) eqn:Hlt.
  - apply Z.ltb_lt in Hlt. cbn [no_slash]. now rewrite byte_not_slash by lia.
  - rewrite IH by (apply Z.div_pos; lia). cbn [no_slash].
    now rewrite byte_not_slash by (apply Z.mod_pos_bound; lia).
Qed.

Lemma no_slash_d (x : Z) : no_slash (Fmt.d x) = true.
Proof.
  unfold Fmt.d. rewrite no_slash_append, no_slash_utod by lia.
  now destruct (x <? 0).
Qed.

Lemma no_slash_zeros (n : nat) : no_slash (Fmt.zeros n) = true.
Proof. induction n; simpl; auto. Qed.

Lemma no_slash_appendInt (x : Z) (width : nat) : no_slash (Fmt.appendInt x width) = true.
Proof.
  unfold Fmt.appendInt. rewrite no_slash_append.
  assert (Hsign : no_slash (if x <? 0 then "-" else "") = true)
    by now destruct (x <? 0).
  rewrite Hsign. cbn [andb].
  pose proof (Z.abs_nonneg x) as Hu. revert Hu. generalize (Z.abs x) as u. intros u Hu.
  destruct ((width =? 2)%nat && (u <? 100)) eqn:Htwo.
  { apply andb_true_iff in Htwo as [_ Hlt]. apply Z.ltb_lt in Hlt.
    cbn [no_slash].
    rewrite !byte_not_slash; [reflexivity | |].
    - apply Z.mod_pos_bound; lia.
    - split; [apply Z.div_pos; lia | apply Z.div_lt_upper_bound; lia]. }
  destruct ((width =? 4)%nat && (u <? 10000)) eqn:Hfour.
  { apply andb_true_iff in Hfour as [_ Hlt]. apply Z.ltb_lt in Hlt.
    cbn [no_slash].
    assert (Hhi : 0 <= u / 100 < 100)
      by (split; [apply Z.div_pos; lia | apply Z.div_lt_upper_bound; lia]).
    assert (Hlo : 0 <= u mod 100 < 100) by (apply Z.mod_pos_bound; lia).
    rewrite !byte_not_slash; [reflexivity | | | |].
    - apply Z.mod_pos_bound; lia.
    - split; [apply Z.div_pos; lia | apply Z.div_lt_upper_bound; lia].
    - apply Z.mod_pos_bound; lia.
    - split; [apply Z.div_pos; lia | apply Z.div_lt_upper_bound; lia]. }
  now rewrite no_slash_append, no_slash_zeros, no_slash_utod.
Qed.

Lemma no_slash_stamp (t : Time) : no_slash (Format t layout_stamp) = true.
Proof.
  unfold layout_stamp. simpl Format. unfold appendChunk.
  now rewrite !no_slash_append, !no_slash_appendInt.
Qed.

End FmtFacts.

(** ** Paths and time stamps *)

Section FilepathFacts.

Lemma split_on_no_slash (cur s : string) :
  no_slash s = true -> Filepath.split_on "/" cur s = [cur +:+ s].
Proof.
  revert cur. induction s as [|c s IH]; intros cur Hs.
  - now rewrite append_nil_r.
  - simpl in Hs. apply andb_true_iff in Hs as [Hc Hs].
    simpl. apply negb_true_iff in Hc. rewrite Hc.
    rewrite IH by exact Hs. now rewrite append_assoc.
Qed.

Lemma length_stamp_name (t : Time) :
  (8 <= String.length (Format t layout_stamp +:+ "-log.txt"))%nat.
Proof. rewrite length_append. simpl. lia. Qed.

Variable leaf : string.
Hypothesis leaf_no_slash : no_slash leaf = true.
Hypothesis leaf_long : (8 <= String.length leaf)%nat.

Lemma clean_step_name (rooted : bool) (out : list string) :
  Filepath.clean_step rooted out leaf = leaf :: out.
Proof.
  unfold Filepath.clean_step.
  now rewrite (eqb_short leaf "."), (eqb_short leaf ""), (eqb_short leaf "..")
    by (simpl; lia).
Qed.

Lemma Join_under_logDir : Filepath.Join ["./data/log"; leaf] = "data/log/" +:+ leaf.
Proof.
  unfold Filepath.Join. simpl List.filter.
  rewrite (eqb_short leaf "") by (simpl; lia). simpl negb. cbv iota.
  unfold Filepath.Clean.
  change (String.concat "/" ["./data/log"; leaf]) with ("./data/log/" +:+ leaf).
  change (Filepath.is_rooted ("./data/log/" +:+ leaf)) with false.
  change (Filepath.split_on "/" "" ("./data/log/" +:+ leaf))
    with ("." :: "data" :: "log" :: Filepath.split_on "/" "" leaf).
  rewrite split_on_no_slash by exact leaf_no_slash.
  rewrite append_nil_l.
  cbn [fold_left]. rewrite clean_step_name.
  reflexivity.
Qed.

Lemma Clean_under_logDir : Filepath.Clean ("data/log/" +:+ leaf) = "data/log/" +:+ leaf.
Proof.
  unfold Filepath.Clean.
  change (Filepath.is_rooted ("data/log/" +:+ leaf)) with false.
  change (Filepath.split_on "/" "" ("data/log/" +:+ leaf))
    with ("data" :: "log" :: Filepath.split_on "/" "" leaf).
  rewrite split_on_no_slash by exact leaf_no_slash.
  rewrite append_nil_l.
  cbn [fold_left]. rewrite clean_step_name.
  reflexivity.
Qed.

Lemma ancestors_under_logDir :
  Filepath.ancestors ("data/log/" +:+ leaf) = ["data"; "data/log"; "data/log/" +:+ leaf].
Proof.
  unfold Filepath.ancestors. rewrite Clean_under_logDir.
  change (Filepath.is_rooted ("data/log/" +:+ leaf)) with false.
  change (Filepath.split_on "/" "" ("data/log/" +:+ leaf))
    with ("data" :: "log" :: Filepath.split_on "/" "" leaf).
  rewrite split_on_no_slash by exact leaf_no_slash.
  rewrite append_nil_l. cbn [List.filter String.eqb Ascii.eqb Bool.eqb negb].
  rewrite (eqb_short leaf "") by (simpl; lia). reflexivity.
Qed.

End FilepathFacts.

Lemma ancestors_logDir : Filepath.ancestors "./data/log" = ["data"; "data/log"].
Proof. reflexivity. Qed.

Section StampFacts.

Lemma appendInt_digits2 (x : Z) : 0 <= x <= 99 -> Fmt.appendInt x 2 = digits2 x.
Proof.
  intros Hx. unfold Fmt.appendInt, digits2.
  rewrite (proj2 (Z.ltb_ge x 0)) by lia. rewrite Z.abs_eq by lia.
  rewrite (proj2 (Z.ltb_lt x 100)) by lia. cbn [Nat.eqb andb]. rewrite append_nil_l.
  rewrite !byte_digit.
  - f_equal. f_equal. apply digit_mod, Z.mod_mod. lia.
  - apply Z.mod_pos_bound. lia.
  - split; [apply Z.div_pos; lia | apply Z.div_lt_upper_bound; lia].
Qed.

Lemma appendInt_digits4 (x : Z) : 0 <= x <= 9999 -> Fmt.appendInt x 4 = digits4 x.
Proof.
  intros Hx. unfold Fmt.appendInt, digits4, digits2.
  rewrite (proj2 (Z.ltb_ge x 0)) by lia. rewrite Z.abs_eq by lia.
  rewrite (proj2 (Z.ltb_lt x 10000)) by lia. cbn [Nat.eqb andb]. rewrite append_nil_l.
  assert (Hhi : 0 <= x / 100 < 100)
    by (split; [apply Z.div_pos; lia | apply Z.div_lt_upper_bound; lia]).
  assert (Hlo : 0 <= x mod 100 < 100) by (apply Z.mod_pos_bound; lia).
  rewrite !byte_digit.
  - f_equal; [apply digit_mod; now rewrite Z.div_div by lia|].
    f_equal; [apply digit_mod, Z.mod_mod; lia|].
    f_equal; [apply digit_mod; Z.div_mod_to_equations; lia|].
    f_equal. apply digit_mod. Z.div_mod_to_equations. lia.
  - apply Z.mod_pos_bound. lia.
  - split; [apply Z.div_pos; lia | apply Z.div_lt_upper_bound; lia].
  - apply Z.mod_pos_bound. lia.
  - split; [apply Z.div_pos; lia | apply Z.div_lt_upper_bound; lia].
Qed.

Lemma Format_stamp_valid (t : Time) :
  GoTime.valid t -> Format t layout_stamp = YYYYMMDD_HHMMSS t.
Proof.
  intros (Hy & Hm & Hd & Hh & Hn & Hs).
  unfold layout_stamp, YYYYMMDD_HHMMSS. simpl Format. unfold appendChunk.
  rewrite appendInt_digits4 by lia.
  rewrite !appendInt_digits2 by lia.
  now rewrite append_nil_r.
Qed.

Lemma is_digit_digit (n : Z) : is_digit (digit n) = true.
Proof.
  unfold digit.
  assert (H : (Z.to_nat (n mod 10) < 10)%nat) by (pose proof (Z.mod_pos_bound n 10); lia).
  revert H. generalize (Z.to_nat (n mod 10)) as k. intros k Hk.
  do 10 (destruct k as [|k]; [reflexivity|]). lia.
Qed.

Lemma stamp_matches_pattern (t : Time) :
  matches_stamp_pattern (YYYYMMDD_HHMMSS t +:+ "-log.txt") = true.
Proof.
  unfold YYYYMMDD_HHMMSS, digits4, digits2, matches_stamp_pattern.
  repeat (rewrite append_cons || rewrite append_nil_l).
  cbn [list_ascii_of_string forallb].
  rewrite !is_digit_digit. reflexivity.
Qed.

End StampFacts.

(** ** The file system *)

Section FileSystemFacts.

Lemma mkdir_each_frame fault ps fs :
  files (fst (mkdir_each fault ps fs)) = files fs /\
  fdtable (fst (mkdir_each fault ps fs)) = fdtable fs /\
  dirs fs ⊆ dirs (fst (mkdir_each fault ps fs)).
Proof.
  revert fs. induction ps as [|p ps IH]; intros fs; simpl.
  - done.
  - destruct (decide (p ∈ dirs fs)); [apply IH|].
    destruct (decide (is_Some (files fs !! p))); [done|].
    destruct (fault p); [done|].
    destruct (IH (mkFileSystem ({[p]} ∪ dirs fs) (files fs) (fdtable fs)))
      as (Hf & Ht & Hd).
    simpl in *. repeat split; [done | done |].
    intros q Hq. apply Hd, elem_of_union_r, Hq.
Qed.

Lemma mkdir_each_made fault ps fs fs' :
  mkdir_each fault ps fs = (fs', None) -> forall p, p ∈ ps -> p ∈ dirs fs'.
Proof.
  revert fs. induction ps as [|p ps IH]; intros fs Hrun q Hq.
  - by apply elem_of_nil in Hq.
  - simpl in Hrun.
    assert (Hmono : forall fs0, mkdir_each fault ps fs0 = (fs', None) ->
                                dirs fs0 ⊆ dirs fs').
    { intros fs0 H0. pose proof (mkdir_each_frame fault ps fs0) as (_ & _ & Hd).
      by rewrite H0 in Hd. }
    apply elem_of_cons in Hq as [->|Hq].
    + destruct (decide (p ∈ dirs fs)) as [Hin|Hout].
      * apply (Hmono _ Hrun), Hin.
      * destruct (decide (is_Some (files fs !! p))); [done|].
        destruct (fault p); [done|].
        apply (Hmono _ Hrun). simpl. apply elem_of_union_l, elem_of_singleton_2.
        reflexivity.
    + destruct (decide (p ∈ dirs fs)); [by eapply IH|].
      destruct (decide (is_Some (files fs !! p))); [done|].
      destruct (fault p); [done|]. by eapply IH.
Qed.

Lemma mkdir_each_present fault ps fs :
  (forall p, p ∈ ps -> p ∈ dirs fs) -> mkdir_each fault ps fs = (fs, None).
Proof.
  induction ps as [|p ps IH]; intros Hall; simpl; [done|].
  rewrite decide_True by (apply Hall; left).
  apply IH. intros q Hq. apply Hall. by right.
Qed.

Lemma MkdirAll_frame fault path fs :
  files (fst (MkdirAll fault path fs)) = files fs /\
  fdtable (fst (MkdirAll fault path fs)) = fdtable fs /\
  dirs fs ⊆ dirs (fst (MkdirAll fault path fs)).
Proof. apply mkdir_each_frame. Qed.

(** What a successful [OpenFile] with [O_CREATE|O_WRONLY|O_TRUNC] leaves. *)
Lemma OpenFile_create_trunc fault path fs fs' f :
  OpenFile fault path create_trunc fs = (fs', inl f) ->
  fault = None /\ (Filepath.Clean path ∉ dirs fs) /\
  fdtable fs !! fd f = None /\
  fs' = mkFileSystem (dirs fs) (<[Filepath.Clean path := ""]> (files fs))
          (<[fd f := mkDescription (Filepath.Clean path) 0 false]> (fdtable fs)).
Proof.
  assert (Hfresh : fdtable fs !! fresh (dom (fdtable fs)) = None).
  { apply not_elem_of_dom, is_fresh. }
  unfold OpenFile. destruct fault; [done|]. cbv zeta.
  change (has_flag create_trunc O_CREATE) with true.
  change (has_flag create_trunc O_EXCL) with false.
  change (has_flag create_trunc O_TRUNC) with true.
  change (has_flag create_trunc O_APPEND) with false.
  destruct (parent (Filepath.Clean path)) as [dir|];
    [destruct (decide (dir ∈ dirs fs)); [|by destruct (decide _)]|];
    (destruct (decide (Filepath.Clean path ∈ dirs fs)); [done|]);
    destruct (files fs !! Filepath.Clean path); simpl; intros [= <- <-]; done.
Qed.

(** The file a successful [OpenFile] returns. *)
Lemma OpenFile_file fault path flag fs fs' f :
  OpenFile fault path flag fs = (fs', inl f) ->
  f = mkFile (fresh (dom (fdtable fs))) path.
Proof.
  unfold OpenFile. destruct fault; [done|]. cbv zeta.
  destruct (parent (Filepath.Clean path)) as [dir|];
    [destruct (decide (dir ∈ dirs fs)); [|by destruct (decide _)]|];
    (destruct (decide (Filepath.Clean path ∈ dirs fs)); [done|]);
    (destruct (files fs !! _);
       [destruct (_ && _); [done | by intros [= _ <-]]
       |destruct (has_flag flag O_CREATE); [by intros [= _ <-] | done]]).
Qed.

(** [OpenFile] succeeds only in a directory that is there. *)
Lemma OpenFile_parent fault path flag fs fs' f dir :
  OpenFile fault path flag fs = (fs', inl f) ->
  parent (Filepath.Clean path) = Some dir -> dir ∈ dirs fs.
Proof.
  unfold OpenFile. destruct fault; [done|]. cbv zeta. intros Hop Hdir.
  rewrite Hdir in Hop. destruct (decide (dir ∈ dirs fs)); [done|].
  by destruct (decide _).
Qed.

Lemma OpenFile_refused fault path flag fs fs' e :
  OpenFile fault path flag fs = (fs', inr e) -> fs' = fs.
Proof.
  unfold OpenFile. destruct fault; [by intros [= <- _]|]. cbv zeta.
  destruct (parent (Filepath.Clean path)) as [dir|];
    [destruct (decide (dir ∈ dirs fs));
       [|destruct (decide _); by intros [= <- _]]|];
    (destruct (decide (Filepath.Clean path ∈ dirs fs)); [by intros [= <- _]|]);
    (destruct (files fs !! _);
       [destruct (_ && _); [by intros [= <- _] | done]
       |destruct (has_flag flag O_CREATE); [done | by intros [= <- _]]]).
Qed.

Lemma OpenFile_accepted path fs :
  (forall dir, parent (Filepath.Clean path) = Some dir -> dir ∈ dirs fs) ->
  Filepath.Clean path ∉ dirs fs ->
  exists fs' f, OpenFile None path create_trunc fs = (fs', inl f).
Proof.
  intros Hdir Hnd. unfold OpenFile. cbv zeta.
  change (has_flag create_trunc O_CREATE) with true.
  change (has_flag create_trunc O_EXCL) with false.
  destruct (parent (Filepath.Clean path)) as [dir|];
    [rewrite (decide_True (P := dir ∈ dirs fs)) by (by apply Hdir)|];
    rewrite decide_False by done;
    destruct (files fs !! Filepath.Clean path); simpl; eauto.
Qed.

Lemma write_at_empty (data : string) : write_at "" 0 data = data.
Proof.
  unfold write_at. rewrite !substring_empty. simpl nuls.
  by rewrite !append_nil_l, append_nil_r.
Qed.

(** The first write through a descriptor that was just opened with
    [O_TRUNC]. *)
Lemma WriteString_fresh fault f data ds fl tb p :
  tb !! fd f = Some (mkDescription p 0 false) ->
  fl !! p = Some "" ->
  let n := match fault with
           | Some (k, _) => Nat.min k (String.length data)
           | None => String.length data
           end in
  WriteString fault f data (mkFileSystem ds fl tb) =
    (mkFileSystem ds (<[p := substring 0 n data]> fl)
       (<[fd f := mkDescription p n false]> tb),
     (n, match fault with
         | Some (_, e) => Some ("write " +:+ name f +:+ ": " +:+ e)
         | None => None
         end)).
Proof.
  intros Htb Hfl n. unfold WriteString. simpl. rewrite Htb. simpl.
  rewrite Hfl. simpl. by rewrite write_at_empty.
Qed.

Lemma mkdir_each_adds fault ps fs :
  dirs (fst (mkdir_each fault ps fs)) ⊆ dirs fs ∪ list_to_set ps.
Proof.
  revert fs. induction ps as [|p ps IH]; intros fs; simpl.
  - apply union_subseteq_l.
  - destruct (decide (p ∈ dirs fs)).
    { intros q Hq. apply (IH fs) in Hq. set_unfold. tauto. }
    destruct (decide (is_Some (files fs !! p))); [apply union_subseteq_l|].
    destruct (fault p); [apply union_subseteq_l|].
    intros q Hq.
    apply (IH (mkFileSystem ({[p]} ∪ dirs fs) (files fs) (fdtable fs))) in Hq.
    simpl in Hq. set_unfold. tauto.
Qed.

End FileSystemFacts.

(** ** Running the handlers *)

Lemma log_name_no_slash a : no_slash (log_name a) = true.
Proof. unfold log_name. by rewrite no_slash_append, no_slash_stamp. Qed.

Lemma log_name_long a : (8 <= String.length (log_name a))%nat.
Proof. apply length_stamp_name. Qed.

Lemma Join_log_path a : Filepath.Join ["./data/log"; log_name a] = log_path a.
Proof. apply Join_under_logDir; [apply log_name_no_slash | apply log_name_long]. Qed.

Lemma Clean_log_path a : Filepath.Clean (log_path a) = log_path a.
Proof. apply Clean_under_logDir; [apply log_name_no_slash | apply log_name_long]. Qed.

Lemma parent_log_path a : parent (log_path a) = Some "data/log".
Proof.
  unfold parent, log_path.
  by rewrite ancestors_under_logDir by (apply log_name_no_slash || apply log_name_long).
Qed.

Lemma getEnvOrDefault_run key defaultValue s :
  getEnvOrDefault key defaultValue s = (resolve (environ (world s)) key defaultValue, s).
Proof.
  unfold resolve, getEnvOrDefault, os_Getenv, on_world, mbind, M_bind, mret, M_ret.
  destruct s as [w rw evs]. cbn [world writer events fst environ].
  by destruct (negb _).
Qed.

(** Unfolds the primitives of the handler monad down to state passing. *)
Ltac unfold_monad :=
  unfold defer, atomic_AddInt64, atomic_LoadInt64, logger_Printf, w_Write, http_Error,
    json_Encode, os_MkdirAll, os_OpenFile, File_WriteString, File_Close,
    emit, on_world, on_writer;
  unfold mbind, M_bind, mret, M_ret.

(** Reduces the projections of the states built so far. *)
Ltac step :=
  cbn [world writer events fst snd load store requestCount writeCount filesys
       environ with_filesys app].

(** Runs the handler up to its next call that depends on the system. *)
Ltac exec := step; repeat (rewrite getEnvOrDefault_run; step).

(** Runs [writeHandler] from [w] up to the three calls into the file system,
    one goal for each way through. *)
Ltac run_writeHandler a r w :=
  unfold serve, handler, writeHandler;
  match goal with
  | |- context [Format (now ?a 0) layout_stamp +:+ "-log.txt"] =>
      change (Format (now a 0) layout_stamp +:+ "-log.txt") with (log_name a);
      rewrite (Join_log_path a)
  end;
  unfold_monad; step;
  let fs1 := fresh "fs1" in
  let e := fresh "e" in
  let Hmk := fresh "Hmk" in
  destruct (MkdirAll _ _ _) as [fs1 [e|]] eqn:Hmk; step;
  [|
   let fs2 := fresh "fs2" in
   let f := fresh "f" in
   let Hop := fresh "Hop" in
   destruct (OpenFile _ _ _ _) as [fs2 [f|e]] eqn:Hop; step;
   [ rewrite (surjective_pairing (Os.Hostname _)); step;
     exec; fold create_trunc in *;
     match goal with
     | |- context [WriteString ?ft ?f ?data ?fs] =>
         change data with (report a r w) in *
     end
   | fold create_trunc in * ]].

Lemma writeHandler_run a r w : WriteRun a r w (serve ApiWrite a r w).
Proof.
  run_writeHandler a r w.
  - by eapply MkdirFailed.
  - destruct (WriteString _ _ _ _) as [fs3 [n [e|]]] eqn:Hwr; step.
    + rewrite (surjective_pairing (Close f fs3)); step.
      eapply WriteFailed; eauto.
    + rewrite (surjective_pairing (Close f fs3)); step.
      eapply Written; eauto.
  - eapply OpenFailed; eauto.
Qed.

Lemma existsb_io_filter (p : Event -> bool) evs :
  (forall ev, p ev = true -> is_io ev = true) ->
  existsb p (List.filter is_io evs) = existsb p evs.
Proof.
  intros Hio. induction evs as [|ev evs IH]; [done|].
  cbn [List.filter existsb]. destruct (is_io ev) eqn:Hev.
  - cbn [existsb]. by rewrite IH.
  - destruct (p ev) eqn:Hp; [|done]. apply Hio in Hp. congruence.
Qed.

Lemma io_failed_is_io ev : io_failed ev = true -> is_io ev = true.
Proof. by destruct ev as [| | ? [?|] | ? ? [?|?] | ? ? [? [?|]] |]. Qed.

Lemma create_failed_is_io ev : create_failed ev = true -> is_io ev = true.
Proof. by destruct ev as [| | ? [?|] | ? ? [?|?] | ? ? [? [?|]] |]. Qed.

Lemma In_io ev evs : In ev evs -> is_io ev = true -> In ev (List.filter is_io evs).
Proof. intros. by apply filter_In. Qed.

Lemma In_filter_io ev evs ios : List.filter is_io evs = ios -> In ev ios -> In ev evs.
Proof. intros <- Hin. by apply filter_In in Hin as [Hin _]. Qed.

(** The file system after the log file was opened, written to and closed. *)
Lemma log_file_written a w fs1 fs2 f data fs3 n err :
  MkdirAll (mkdir_fault a) "./data/log" (filesys w) = (fs1, None) ->
  OpenFile (open_fault a) (log_path a) create_trunc fs1 = (fs2, inl f) ->
  WriteString (write_fault a) f data fs2 = (fs3, (n, err)) ->
  files (fst (Close f fs3))
    = <[log_path a := substring 0 n data]> (files (filesys w)) /\
  fdtable (fst (Close f fs3)) = fdtable (filesys w) /\
  dirs (fst (Close f fs3)) = dirs fs1 /\
  (forall p, p ∈ Filepath.ancestors "./data/log" -> p ∈ dirs fs1) /\
  (log_path a ∉ dirs fs1) /\
  (n <= String.length data)%nat /\
  (err = None -> n = String.length data) /\
  (write_fault a = None -> err = None).
Proof.
  intros Hmk Hop Hwr.
  pose proof (MkdirAll_frame (mkdir_fault a) "./data/log" (filesys w)) as (Hfl & Htb & _).
  rewrite Hmk in Hfl, Htb. simpl in Hfl, Htb.
  assert (Hdir : forall p, p ∈ Filepath.ancestors "./data/log" -> p ∈ dirs fs1)
    by (by eapply mkdir_each_made).
  apply OpenFile_create_trunc in Hop as (_ & Hnd & Hfresh & ->).
  rewrite Clean_log_path in *.
  rewrite (WriteString_fresh _ _ _ _ _ _ (log_path a)) in Hwr
    by (simpl; apply lookup_insert_eq).
  injection Hwr as <- <- <-.
  unfold Close. simpl. rewrite lookup_insert_eq. simpl.
  rewrite insert_insert_eq, Hfl. rewrite insert_insert_eq.
  rewrite delete_insert_eq, Htb.
  repeat split; try done.
  - apply delete_id. by rewrite <- Htb.
  - destruct (write_fault a) as [[k e]|]; lia.
  - by destruct (write_fault a) as [[k e]|].
  - by intros ->.
Qed.

Lemma Int64_add_one x :
  Int64.in_range x -> x < Int64.max_int -> Int64.add x 1 = x + 1.
Proof.
  unfold Int64.in_range, Int64.min_int, Int64.max_int, Int64.add, Int64.wrap.
  intros Hr Hlt. rewrite Z.mod_small; lia.
Qed.

Lemma incremented_add x : incremented x (Int64.add x 1).
Proof. split; [reflexivity | apply Int64_add_one]. Qed.

Lemma unlines_cons l ls : unlines (l :: ls) = l +:+ nl +:+ unlines ls.
Proof.
  unfold unlines. destruct ls as [|l' ls]; cbn [map String.concat].
  - by rewrite !append_nil_r.
  - by rewrite append_nil_l, append_assoc.
Qed.

Lemma contains_unlines l ls : In l ls -> contains (l +:+ nl) (unlines ls).
Proof.
  induction ls as [|l' ls IH]; intros Hin; [done|].
  rewrite unlines_cons. destruct Hin as [->|Hin].
  - exists "", (unlines ls). by rewrite append_nil_l, append_assoc.
  - destruct (IH Hin) as (before & after & ->).
    exists (l' +:+ nl +:+ before), after. by rewrite !append_assoc.
Qed.

Lemma report_nonempty a r w : (0 < String.length (report a r w))%nat.
Proof.
  unfold report, report_lines, logContent_lines. rewrite unlines_cons.
  rewrite append_cons. simpl. lia.
Qed.

Lemma writeHandler_counting a r w :
  let s := serve ApiWrite a r w in
  requestCount (world s) = Int64.add (requestCount w) 1 /\
  writeCount (world s) = Int64.add (writeCount w) 1 /\
  environ (world s) = environ w /\
  exists rest, events s = EvAdd RequestCount :: EvAdd WriteCount :: rest /\
               List.filter is_add rest = [].
Proof.
  cbv zeta. run_writeHandler a r w.
  - repeat split; eauto.
  - destruct (WriteString _ _ _ _) as [fs3 [n [e|]]]; step;
      rewrite (surjective_pairing (Close f fs3)); step; repeat split; eauto.
  - repeat split; eauto.
Qed.

Lemma contains_app_l before sub s : contains sub s -> contains sub (before +:+ s).
Proof.
  intros (b & a & ->). exists (before +:+ b), a. by rewrite append_assoc.
Qed.

(** Case analysis on the way a write request went, with the facts of
    [WriteRun] named by their role. *)
Ltac write_cases a r w s :=
  let Hrun := fresh "Hrun" in
  pose proof (writeHandler_run a r w) as Hrun; fold s in Hrun;
  destruct Hrun as
    [fs1 e Hmk Hfs Hw Hio | fs1 fs2 e Hmk Hop Hfs Hw Hio
    | fs1 fs2 f fs3 n e Hmk Hop Hwr Hfs Hw Hio
    | fs1 fs2 f fs3 n Hmk Hop Hwr Hfs Hw Hio].

(** Settles a goal about an event of the request from the list [Hio] of its
    calls into the file system. *)
Ltac by_io_events Hin Hio :=
  intros;
  repeat match goal with
  | H : In _ (events _) |- _ =>
      apply Hin in H; [rewrite Hio in H; cbn in H | reflexivity]
  end;
  repeat match goal with
  | H : _ \/ _ |- _ => destruct H
  | H : False |- _ => destruct H
  end;
  simplify_eq; eauto.

(** What a write request without a failed call leaves. *)
Lemma write_succeeded a r w :
  let s := serve ApiWrite a r w in
  existsb io_failed (events s) = false ->
  status (writer s) = Some StatusOK /\
  files (filesys (world s)) = <[log_path a := report a r w]> (files (filesys w)) /\
  fdtable (filesys (world s)) = fdtable (filesys w) /\
  (forall p, p ∈ Filepath.ancestors "./data/log" -> p ∈ dirs (filesys (world s))) /\
  (log_path a ∉ dirs (filesys (world s))) /\
  List.filter is_io (events s) =
    [EvMkdirAll "./data/log" None;
     EvOpenFile (log_path a) create_trunc
       (inl (mkFile (fresh (dom (fdtable (filesys w)))) (log_path a)));
     EvWriteString (mkFile (fresh (dom (fdtable (filesys w)))) (log_path a))
       (report a r w) (String.length (report a r w), None);
     EvClose (mkFile (fresh (dom (fdtable (filesys w)))) (log_path a))].
Proof.
  intros s. rewrite <- (existsb_io_filter io_failed) by apply io_failed_is_io.
  write_cases a r w s; rewrite Hio; try done. intros _.
  destruct (log_file_written a w fs1 fs2 f _ fs3 n _ Hmk Hop Hwr)
    as (Hfl & Htb & Hds & Hdir & Hnd & _ & Hn & _).
  rewrite Hn in * by done. rewrite substring_all in Hfl.
  rewrite Hfs, Hds, Hw. repeat split; try done.
  pose proof (MkdirAll_frame (mkdir_fault a) "./data/log" (filesys w)) as (_ & Htb1 & _).
  rewrite Hmk in Htb1. cbn [fst] in Htb1. rewrite <- Htb1.
  by rewrite (OpenFile_file _ _ _ _ _ _ Hop).
Qed.

(** ** The claims *)

(** C1. A write request in which the creation of the directory, the
    creation of the file or the write of the content fails is answered with
    status 500 and the error message, and both counters have been
    incremented by one: the two increments are the first things the handler
    does, before any call into the file system, and it increments nothing
    afterwards. *)
Theorem writeHandler_failure_500 (a : Ambient) (r : Request) (w : World) :
  let s := serve ApiWrite a r w in
  existsb io_failed (events s) = true ->
  status (writer s) = Some StatusInternalServerError /\
  (exists msg, body (writer s) = [Text (msg +:+ nl)]) /\
  incremented (requestCount w) (requestCount (world s)) /\
  incremented (writeCount w) (writeCount (world s)) /\
  exists rest, events s = EvAdd RequestCount :: EvAdd WriteCount :: rest /\
               List.filter is_add rest = [] /\
               List.filter is_io (events s) = List.filter is_io rest.
Proof.
  intros s Hfail.
  destruct (writeHandler_counting a r w) as (Hrc & Hwc & _ & rest & Hev & Hadds).
  fold s in Hrc, Hwc, Hev. rewrite Hrc, Hwc.
  assert (Hresp : status (writer s) = Some StatusInternalServerError /\
                  exists msg, body (writer s) = [Text (msg +:+ nl)]).
  { rewrite <- (existsb_io_filter io_failed) in Hfail by apply io_failed_is_io.
    destruct (writeHandler_run a r w) as
      [fs1 e _ _ Hw _ | fs1 fs2 e _ _ _ Hw _ | fs1 fs2 f fs3 n e _ _ _ _ Hw _
      | fs1 fs2 f fs3 n _ _ _ _ _ Hio];
      fold s in Hw || fold s in Hio.
    1-3: rewrite Hw; split; [reflexivity | eexists; reflexivity].
    rewrite Hio in Hfail. discriminate. }
  destruct Hresp as [Hst Hbody].
  repeat split; try done; try apply Int64_add_one.
  exists rest. rewrite Hev. by cbn.
Qed.

Lemma writeHandler_failure_500_witness :
  existsb io_failed (events (serve ApiWrite read_only sample_request fresh_world)) = true /\
  status (writer (serve ApiWrite read_only sample_request fresh_world))
    = Some StatusInternalServerError /\
  requestCount (world (serve ApiWrite read_only sample_request fresh_world)) = 1 /\
  writeCount (world (serve ApiWrite read_only sample_request fresh_world)) = 1.
Proof.
  assert (Hfail : existsb io_failed
            (events (serve ApiWrite read_only sample_request fresh_world)) = true)
    by (vm_compute; reflexivity).
  destruct (writeHandler_failure_500 read_only sample_request fresh_world Hfail)
    as (Hst & _ & [Hrc _] & [Hwc _] & _).
  split; [exact Hfail|]. split; [exact Hst|]. split; [exact Hrc | exact Hwc].
Defined.




(** C3, as stated, fails: on a volume mounted read-only a write request
    is answered with status 500 and produces no file at all, and on a
    volume that fills up ten bytes into the write the file it leaves holds
    ten bytes of the banner and no operation number. *)
Lemma failed_write_produces_no_report :
  let s := serve ApiWrite read_only sample_request fresh_world in
  let s' := serve ApiWrite disk_full sample_request fresh_world in
  status (writer s) = Some StatusInternalServerError /\
  map_to_list (files (filesys (world s))) = [] /\
  writeCount (world s) = 1 /\
  status (writer s') = Some StatusInternalServerError /\
  map_to_list (files (filesys (world s')))
    = [("data/log/20240309-070501-log.txt", "==========")].
Proof. vm_compute. repeat split. Qed.

(** C3, amended. A write request served on its own changes no file other
    than the one under [data/log] whose name is the time stamp at second
    resolution followed by [-log.txt]. When none of its calls into the file
    system fails, it creates or replaces exactly that file, in the
    directories [data] and [data/log], which are there afterwards; the
    content is the report, and the operation number in the report is the
    write counter just after the request's increment. When the directory or
    the file cannot be created, no file is produced; when the write fails,
    the file holds only the bytes of the report written before the error. *)
Theorem single_write_one_file (a : Ambient) (r : Request) (w : World) :
  let s := serve ApiWrite a r w in
  let before := files (filesys w) in
  let after := files (filesys (world s)) in
  (forall p, after !! p <> before !! p -> p = log_path a) /\
  log_path a = "data/log/" +:+ log_name a /\
  no_slash (log_name a) = true /\
  (GoTime.valid (now a 0) -> matches_stamp_pattern (log_name a) = true) /\
  writeCount (world s) = Int64.add (writeCount w) 1 /\
  (existsb io_failed (events s) = false ->
     after = <[log_path a := report a r w]> before /\
     "data" ∈ dirs (filesys (world s)) /\
     "data/log" ∈ dirs (filesys (world s)) /\
     contains ("🔢 Operation Number: " +:+ Fmt.d (writeCount (world s)) +:+ nl)
       (report a r w)) /\
  (existsb create_failed (events s) = true -> after = before) /\
  (forall f data n e, In (EvWriteString f data (n, Some e)) (events s) ->
     (n <= String.length (report a r w))%nat /\
     after = <[log_path a := substring 0 n (report a r w)]> before).
Proof.
  intros s before after. subst before after.
  destruct (writeHandler_counting a r w) as (_ & Hwc & _). fold s in Hwc.
  assert (Hpat : GoTime.valid (now a 0) -> matches_stamp_pattern (log_name a) = true).
  { intros Hvalid. unfold log_name. rewrite Format_stamp_valid by exact Hvalid.
    apply stamp_matches_pattern. }
  assert (Hnum : contains ("🔢 Operation Number: " +:+ Fmt.d (writeCount (world s)) +:+ nl)
                   (report a r w)).
  { rewrite Hwc, <- append_assoc. apply contains_unlines.
    unfold report_lines, logContent_lines. cbn [In]. tauto. }
  assert (Hone : forall content p,
            <[log_path a := content]> (files (filesys w)) !! p <> files (filesys w) !! p ->
            p = log_path a).
  { intros content p Hp. destruct (decide (p = log_path a)) as [->|Hne]; [done|].
    by rewrite lookup_insert_ne in Hp. }
  assert (Hcases :
    (forall p, files (filesys (world s)) !! p <> files (filesys w) !! p ->
       p = log_path a) /\
    (existsb io_failed (events s) = false ->
       files (filesys (world s)) = <[log_path a := report a r w]> (files (filesys w)) /\
       "data" ∈ dirs (filesys (world s)) /\
       "data/log" ∈ dirs (filesys (world s))) /\
    (existsb create_failed (events s) = true ->
       files (filesys (world s)) = files (filesys w)) /\
    (forall f data n e, In (EvWriteString f data (n, Some e)) (events s) ->
       (n <= String.length (report a r w))%nat /\
       files (filesys (world s))
         = <[log_path a := substring 0 n (report a r w)]> (files (filesys w)))).
  { rewrite <- (existsb_io_filter io_failed) by apply io_failed_is_io.
    rewrite <- (existsb_io_filter create_failed) by apply create_failed_is_io.
    assert (Hin : forall ev, In ev (events s) -> is_io ev = true ->
                             In ev (List.filter is_io (events s)))
      by (intros; by apply In_io).
    clear Hwc Hpat Hnum.
    write_cases a r w s; rewrite Hfs, Hio.
    - pose proof (MkdirAll_frame (mkdir_fault a) "./data/log" (filesys w)) as (Hfl & _).
      rewrite Hmk in Hfl. cbn [fst] in Hfl. rewrite Hfl.
      repeat split; by_io_events Hin Hio.
    - pose proof (MkdirAll_frame (mkdir_fault a) "./data/log" (filesys w)) as (Hfl & _).
      rewrite Hmk in Hfl. cbn [fst] in Hfl.
      apply OpenFile_refused in Hop as ->. rewrite Hfl.
      repeat split; by_io_events Hin Hio.
    - destruct (log_file_written a w fs1 fs2 f _ fs3 n _ Hmk Hop Hwr)
        as (Hfl & _ & _ & _ & _ & Hn & _ & _).
      rewrite Hfl. repeat split; by_io_events Hin Hio.
    - destruct (log_file_written a w fs1 fs2 f _ fs3 n _ Hmk Hop Hwr)
        as (Hfl & _ & Hd & Hdir & _ & _ & Hn & _).
      rewrite Hn in Hfl by done. rewrite substring_all in Hfl.
      rewrite ancestors_logDir in Hdir. rewrite Hfl, Hd.
      repeat split; try (apply Hdir; set_unfold; tauto); by_io_events Hin Hio. }
  destruct Hcases as (Hchanged & Hgood & Hnone & Hpart).
  split; [exact Hchanged|]. split; [reflexivity|]. split; [apply log_name_no_slash|].
  split; [exact Hpat|]. split; [exact Hwc|].
  split; [|split; [exact Hnone | exact Hpart]].
  intros Hok. destruct (Hgood Hok) as (Hfl & Hd1 & Hd2). done.
Qed.

Lemma single_write_one_file_witness :
  files (filesys (world (serve ApiWrite calm sample_request fresh_world)))
    = <[log_path calm := report calm sample_request fresh_world]> ∅ /\
  matches_stamp_pattern (log_name calm) = true /\
  contains ("🔢 Operation Number: 1" +:+ nl) (report calm sample_request fresh_world).
Proof.
  assert (Hok : existsb io_failed
                  (events (serve ApiWrite calm sample_request fresh_world)) = false)
    by (vm_compute; reflexivity).
  assert (Hvalid : GoTime.valid (now calm 0))
    by (unfold GoTime.valid; simpl; lia).
  destruct (single_write_one_file calm sample_request fresh_world)
    as (_ & _ & _ & Hpat & _ & Hfile & _).
  destruct (Hfile Hok) as (Hfl & _ & _ & Hop).
  split; [exact Hfl|]. split; [exact (Hpat Hvalid) | exact Hop].
Defined.

(** C4, as stated, fails: when the volume fills up ten bytes into the
    second of two write requests with the same time stamp, the second
    request is answered with status 500 and the one file holds ten bytes,
    which is neither the report of the later request nor that of the
    first. *)
Lemma second_write_on_full_disk :
  let s1 := serve ApiWrite calm sample_request fresh_world in
  let s2 := serve ApiWrite disk_full second_request (world s1) in
  Format (now calm 0) layout_stamp = Format (now disk_full 0) layout_stamp /\
  status (writer s1) = Some StatusOK /\
  status (writer s2) = Some StatusInternalServerError /\
  map_to_list (files (filesys (world s2)))
    = [("data/log/20240309-070501-log.txt", "==========")] /\
  String.length (report disk_full second_request (world s1)) = 1167%nat.
Proof. vm_compute. repeat split. Qed.

(** C4, amended. When a write request has succeeded and a second one,
    served after it, computes the same time stamp, the second request uses
    the same path, finds the directory in place and opens the file with
    truncation: it never appends and never fails because the file is
    there. If the system refuses neither the open nor the write, it is
    answered with status 200 and the one file holds the report of the
    second request alone. If the system refuses the open, it is answered
    with status 500 and the first report stays as it was. If the write
    fails, it is answered with status 500 and the file holds only the bytes
    of the second report written before the error. *)
Theorem same_second_overwrites (a1 a2 : Ambient) (r1 r2 : Request) (w : World) :
  let s1 := serve ApiWrite a1 r1 w in
  let s2 := serve ApiWrite a2 r2 (world s1) in
  Format (now a1 0) layout_stamp = Format (now a2 0) layout_stamp ->
  existsb io_failed (events s1) = false ->
  log_path a2 = log_path a1 /\
  files (filesys (world s1)) !! log_path a1 = Some (report a1 r1 w) /\
  In (EvMkdirAll "./data/log" None) (events s2) /\
  (open_fault a2 = None -> write_fault a2 = None ->
     existsb io_failed (events s2) = false) /\
  (existsb io_failed (events s2) = false ->
     status (writer s2) = Some StatusOK /\
     files (filesys (world s2))
       = <[log_path a1 := report a2 r2 (world s1)]> (files (filesys w)) /\
     files (filesys (world s2)) !! log_path a1
       <> Some (report a1 r1 w +:+ report a2 r2 (world s1))) /\
  (forall path flag e, In (EvOpenFile path flag (inr e)) (events s2) ->
     status (writer s2) = Some StatusInternalServerError /\
     files (filesys (world s2)) = files (filesys (world s1))) /\
  (forall f data n e, In (EvWriteString f data (n, Some e)) (events s2) ->
     status (writer s2) = Some StatusInternalServerError /\
     (n <= String.length (report a2 r2 (world s1)))%nat /\
     files (filesys (world s2))
       = <[log_path a1 := substring 0 n (report a2 r2 (world s1))]> (files (filesys w))).
Proof.
  intros s1 s2 Hstamp Hok1.
  assert (Hpath : log_path a2 = log_path a1)
    by (unfold log_path, log_name; by rewrite Hstamp).
  destruct (write_succeeded a1 r1 w Hok1) as (_ & Hfl1 & _ & Hdir1 & Hnd1 & _).
  fold s1 in Hfl1, Hdir1, Hnd1.
  assert (Hmk2 : MkdirAll (mkdir_fault a2) "./data/log" (filesys (world s1))
                 = (filesys (world s1), None))
    by (by apply mkdir_each_present).
  assert (Hacc : exists fs' f, OpenFile None (log_path a2) create_trunc
                                 (filesys (world s1)) = (fs', inl f)).
  { apply OpenFile_accepted; rewrite Clean_log_path.
    - rewrite parent_log_path. intros dir [= <-]. apply Hdir1.
      rewrite ancestors_logDir. set_unfold. tauto.
    - by rewrite Hpath. }
  assert (Hin : forall ev, In ev (events s2) -> is_io ev = true ->
                           In ev (List.filter is_io (events s2)))
    by (intros; by apply In_io).
  assert (Hlen : forall content,
            Some content <> Some (report a1 r1 w +:+ content) ).
  { intros content Heq. apply (f_equal (from_option String.length 0%nat)) in Heq.
    cbn [from_option] in Heq. rewrite length_append in Heq.
    pose proof (report_nonempty a1 r1 w). lia. }
  split; [exact Hpath|]. split; [rewrite Hfl1; apply lookup_insert_eq|].
  rewrite <- (existsb_io_filter io_failed) by apply io_failed_is_io.
  write_cases a2 r2 (world s1) s2; rewrite Hmk2 in Hmk; try discriminate Hmk;
    injection Hmk as <-; rewrite Hfs, Hw, Hio.
  - rewrite (OpenFile_refused _ _ _ _ _ _ Hop).
    split; [apply (In_filter_io _ _ _ Hio); cbn; tauto|].
    split.
    { intros Hopf Hwrf. rewrite Hopf in Hop. destruct Hacc as (fs' & f & Hacc).
      rewrite Hacc in Hop. discriminate Hop. }
    clear Hop Hfs. repeat split; by_io_events Hin Hio.
  - destruct (log_file_written a2 (world s1) _ fs2 f _ fs3 n _ Hmk2 Hop Hwr)
      as (Hfl & _ & _ & _ & _ & Hn & _ & Herr).
    rewrite Hpath in Hfl. rewrite Hfl, Hfl1, insert_insert_eq.
    split; [apply (In_filter_io _ _ _ Hio); cbn; tauto|].
    split.
    { intros _ Hwrf. by specialize (Herr Hwrf). }
    repeat split; by_io_events Hin Hio.
  - destruct (log_file_written a2 (world s1) _ fs2 f _ fs3 n _ Hmk2 Hop Hwr)
      as (Hfl & _ & _ & _ & _ & _ & Hn & _).
    rewrite Hn in Hfl by done. rewrite substring_all, Hpath in Hfl.
    rewrite Hfl, Hfl1, insert_insert_eq.
    split; [apply (In_filter_io _ _ _ Hio); cbn; tauto|].
    split; [done|].
    repeat split; try (by_io_events Hin Hio).
    rewrite lookup_insert_eq. apply Hlen.
Qed.

Lemma same_second_overwrites_witness :
  files (filesys (world (serve ApiWrite calm second_request
                           (world (serve ApiWrite calm sample_request fresh_world)))))
    = <[log_path calm :=
          report calm second_request
            (world (serve ApiWrite calm sample_request fresh_world))]> ∅.
Proof.
  assert (Hok : existsb io_failed
                  (events (serve ApiWrite calm sample_request fresh_world)) = false)
    by (vm_compute; reflexivity).
  destruct (same_second_overwrites calm calm sample_request second_request fresh_world
              eq_refl Hok) as (_ & _ & _ & Hgo & Hfile & _).
  exact (proj1 (proj2 (Hfile (Hgo eq_refl eq_refl)))).
Defined.

(** The handler takes no lock. When two write requests with the same time
    stamp overlap, so that both have been counted and both have opened the
    file before either writes, the file ends up holding the report written
    last followed by what sticks out of the longer report written first:
    here a stray newline. It is neither of the two reports. *)
Lemma overlapping_writes_leave_a_mix :
  let first := report calm second_request one_counted in
  let second := report calm sample_request one_counted in
  let fs := overlapped_writes (log_path calm) first second (filesys fresh_world) in
  files fs !! log_path calm = Some (second +:+ nl) /\
  String.eqb (second +:+ nl) first = false /\
  String.length first = 1167%nat /\
  String.length second = 1166%nat.
Proof. vm_compute. repeat split. Qed.

(** C5. The file a write request opens, and creates when nothing fails, is
    named by the current time in the layout 20060102-150405 followed by
    [-log.txt]; for a time with a four-digit year that is YYYYMMDD-HHMMSS,
    the decimal digits of year, month, day, hour, minute and second. *)
Theorem log_file_name_is_timestamp (a : Ambient) (r : Request) (w : World) :
  let s := serve ApiWrite a r w in
  (forall path flag res, In (EvOpenFile path flag res) (events s) ->
     path = Filepath.Join ["./data/log"; Format (now a 0) layout_stamp +:+ "-log.txt"] /\
     path = "data/log/" +:+ Format (now a 0) layout_stamp +:+ "-log.txt") /\
  (existsb io_failed (events s) = false ->
     files (filesys (world s))
       !! ("data/log/" +:+ Format (now a 0) layout_stamp +:+ "-log.txt")
     = Some (report a r w)) /\
  (GoTime.valid (now a 0) ->
     Format (now a 0) layout_stamp = YYYYMMDD_HHMMSS (now a 0) /\
     matches_stamp_pattern (Format (now a 0) layout_stamp +:+ "-log.txt") = true).
Proof.
  intros s.
  change (Format (now a 0) layout_stamp +:+ "-log.txt") with (log_name a).
  rewrite Join_log_path. change ("data/log/" +:+ log_name a) with (log_path a).
  split; [|split].
  - assert (Hin : forall ev, In ev (events s) -> is_io ev = true ->
                             In ev (List.filter is_io (events s)))
      by (intros; by apply In_io).
    write_cases a r w s; by_io_events Hin Hio.
  - intros Hok. destruct (write_succeeded a r w Hok) as (_ & Hfl & _).
    fold s in Hfl. rewrite Hfl. apply lookup_insert_eq.
  - intros Hvalid. split; [by apply Format_stamp_valid|].
    unfold log_name. rewrite Format_stamp_valid by exact Hvalid.
    apply stamp_matches_pattern.
Qed.

Lemma log_file_name_is_timestamp_witness :
  GoTime.valid sample_time /\
  Format (now calm 0) layout_stamp = "20240309-070501" /\
  files (filesys (world (serve ApiWrite calm sample_request fresh_world)))
    !! "data/log/20240309-070501-log.txt"
  = Some (report calm sample_request fresh_world).
Proof.
  assert (Hvalid : GoTime.valid sample_time)
    by (unfold GoTime.valid; simpl; lia).
  destruct (log_file_name_is_timestamp calm sample_request fresh_world)
    as (_ & Hfile & Hstamp).
  split; [exact Hvalid|]. split.
  - exact (proj1 (Hstamp Hvalid)).
  - apply Hfile. vm_compute. reflexivity.
Defined.

(** C6, as stated, fails: a process started with [LOG_DIR] and [DATA_DIR]
    set writes its log file under [data/log], where a process started with
    an empty environment writes it. *)
Lemma log_directory_ignores_environment :
  let s := serve ApiWrite calm sample_request configured_world in
  let s0 := serve ApiWrite calm sample_request fresh_world in
  environ configured_world !! "LOG_DIR" = Some "/var/log/app" /\
  environ fresh_world !! "LOG_DIR" = None /\
  status (writer s) = Some StatusOK /\
  map fst (map_to_list (files (filesys (world s))))
    = ["data/log/20240309-070501-log.txt"] /\
  map fst (map_to_list (files (filesys (world s0))))
    = ["data/log/20240309-070501-log.txt"].
Proof. vm_compute. repeat split. Qed.

(** C6, amended. Whatever environment the process was started with, a write
    request creates the directory [./data/log], opens a file directly under
    [data/log], changes no file elsewhere and adds no directory other than
    [data] and [data/log]. *)
Theorem log_directory_is_fixed (env : gmap string string) (a : Ambient) (r : Request)
    (w : World) :
  let s := serve ApiWrite a r (with_environ env w) in
  (forall path err, In (EvMkdirAll path err) (events s) -> path = "./data/log") /\
  (forall path flag res, In (EvOpenFile path flag res) (events s) ->
     exists name, path = "data/log/" +:+ name /\ no_slash name = true) /\
  (forall p, files (filesys (world s)) !! p <> files (filesys w) !! p ->
     exists name, p = "data/log/" +:+ name /\ no_slash name = true) /\
  dirs (filesys (world s)) ⊆ dirs (filesys w) ∪ {["data"; "data/log"]}.
Proof.
  intros s.
  assert (Hin : forall ev, In ev (events s) -> is_io ev = true ->
                           In ev (List.filter is_io (events s)))
    by (intros; by apply In_io).
  assert (Hname : exists name, log_path a = "data/log/" +:+ name /\ no_slash name = true)
    by (exists (log_name a); split; [reflexivity | apply log_name_no_slash]).
  assert (Hds : forall fs1 err,
             MkdirAll (mkdir_fault a) "./data/log" (filesys w) = (fs1, err) ->
             dirs fs1 ⊆ dirs (filesys w) ∪ {["data"; "data/log"]}).
  { intros fs1 err Hmk.
    pose proof (mkdir_each_adds (mkdir_fault a) (Filepath.ancestors "./data/log")
                  (filesys w)) as Hsub.
    fold (MkdirAll (mkdir_fault a) "./data/log" (filesys w)) in Hsub.
    rewrite Hmk, ancestors_logDir in Hsub. cbn [fst] in Hsub.
    intros q Hq. apply Hsub in Hq. set_unfold. tauto. }
  write_cases a r (with_environ env w) s; cbn [filesys with_environ] in Hmk;
    rewrite Hfs.
  - pose proof (MkdirAll_frame (mkdir_fault a) "./data/log" (filesys w)) as (Hfl & _).
    rewrite Hmk in Hfl. cbn [fst] in Hfl. rewrite Hfl.
    repeat split; [by_io_events Hin Hio.. | by eapply Hds].
  - pose proof (MkdirAll_frame (mkdir_fault a) "./data/log" (filesys w)) as (Hfl & _).
    rewrite Hmk in Hfl. cbn [fst] in Hfl.
    apply OpenFile_refused in Hop as ->. rewrite Hfl.
    repeat split; [by_io_events Hin Hio.. | by eapply Hds].
  - destruct (log_file_written a (with_environ env w) fs1 fs2 f _ fs3 n _ Hmk Hop Hwr)
      as (Hfl & _ & Hd & _).
    cbn [filesys with_environ] in Hfl. rewrite Hfl, Hd.
    repeat split; [by_io_events Hin Hio | by_io_events Hin Hio | | by eapply Hds].
    intros p Hp. destruct (decide (p = log_path a)) as [->|Hne]; [done|].
    by rewrite lookup_insert_ne in Hp.
  - destruct (log_file_written a (with_environ env w) fs1 fs2 f _ fs3 n _ Hmk Hop Hwr)
      as (Hfl & _ & Hd & _).
    cbn [filesys with_environ] in Hfl. rewrite Hfl, Hd.
    repeat split; [by_io_events Hin Hio | by_io_events Hin Hio | | by eapply Hds].
    intros p Hp. destruct (decide (p = log_path a)) as [->|Hne]; [done|].
    by rewrite lookup_insert_ne in Hp.
Qed.

Lemma log_directory_is_fixed_witness :
  exists name, "data/log/20240309-070501-log.txt" = "data/log/" +:+ name /\
               no_slash name = true.
Proof.
  apply (proj1 (proj2 (log_directory_is_fixed (environ configured_world) calm
                         sample_request fresh_world))
           "data/log/20240309-070501-log.txt" create_trunc
           (inl (mkFile 0 "data/log/20240309-070501-log.txt"))).
  vm_compute. tauto.
Defined.

(** C7. Every handler increments the request counter by one; the write
    handler increments the write counter by one and the info, stats and
    health handlers leave it as it was. These are the only updates of the
    counters a handler makes. *)
Theorem handlers_count_requests (rt : Route) (a : Ambient) (r : Request) (w : World) :
  let s := serve rt a r w in
  incremented (requestCount w) (requestCount (world s)) /\
  match rt with
  | ApiWrite => incremented (writeCount w) (writeCount (world s))
  | _ => writeCount (world s) = writeCount w
  end /\
  List.filter is_add (events s) =
    match rt with
    | ApiWrite => [EvAdd RequestCount; EvAdd WriteCount]
    | _ => [EvAdd RequestCount]
    end.
Proof.
  destruct rt; cbv zeta.
  - unfold serve, handler, infoHandler. unfold_monad. exec.
    destruct (Os.Hostname (hostname_answer a)) as [h [e|]]; exec;
      destruct (marshal_fault a); exec;
      (split; [apply incremented_add | split; reflexivity]).
  - destruct (writeHandler_counting a r w) as (-> & -> & _ & rest & -> & Hadds).
    split; [apply incremented_add|]. split; [apply incremented_add|].
    cbn. by rewrite Hadds.
  - unfold serve, handler, statsHandler. unfold_monad. exec.
    destruct (marshal_fault a); exec;
      (split; [apply incremented_add | split; reflexivity]).
  - unfold serve, handler, healthHandler. unfold_monad. exec.
    split; [apply incremented_add | split; reflexivity].
Qed.

Lemma handlers_count_requests_witness :
  requestCount (world (serve ApiStats calm sample_request fresh_world)) = 0 + 1 /\
  writeCount (world (serve ApiStats calm sample_request fresh_world)) = 0 /\
  writeCount (world (serve ApiWrite calm sample_request fresh_world)) = 0 + 1.
Proof.
  destruct (handlers_count_requests ApiStats calm sample_request fresh_world)
    as ([_ Hrc] & Hwc & _).
  destruct (handlers_count_requests ApiWrite calm sample_request fresh_world)
    as (_ & [_ Hwc'] & _).
  split; [|split; [exact Hwc|]].
  - apply Hrc; [unfold Int64.in_range | ]; vm_compute; split; discriminate || reflexivity.
  - apply Hwc'; [unfold Int64.in_range | ]; vm_compute; split; discriminate || reflexivity.
Defined.

(** C8. Whatever the state of the process, the health handler answers
    with status 200 and the body OK; it has no other way out, and it does
    not touch the file system. *)
Theorem healthHandler_always_OK (a : Ambient) (r : Request) (w : World) :
  let s := serve Health a r w in
  status (writer s) = Some StatusOK /\
  body (writer s) = [Text "OK"] /\
  List.filter is_io (events s) = [] /\
  filesys (world s) = filesys w.
Proof. cbv zeta. unfold serve, handler, healthHandler. unfold_monad. exec. done. Qed.

(** C9. [getEnvOrDefault] returns the value of the variable when it is set
    and not empty, and the default when it is not set or empty. It always
    returns a string and changes nothing. *)
Theorem getEnvOrDefault_resolves (key defaultValue : string) (s : St) :
  snd (getEnvOrDefault key defaultValue s) = s /\
  (forall value, environ (world s) !! key = Some value -> value <> "" ->
     fst (getEnvOrDefault key defaultValue s) = value) /\
  (environ (world s) !! key = None \/ environ (world s) !! key = Some "" ->
     fst (getEnvOrDefault key defaultValue s) = defaultValue).
Proof.
  unfold getEnvOrDefault, os_Getenv, on_world, mbind, M_bind, mret, M_ret, Getenv.
  destruct s as [w rw evs]. cbn [world writer events].
  repeat split.
  - by destruct (negb _).
  - intros value -> Hne. cbn [from_option id].
    apply String.eqb_neq in Hne. by rewrite Hne.
  - intros [-> | ->]; reflexivity.
Qed.

Lemma getEnvOrDefault_resolves_witness :
  fst (getEnvOrDefault "APP_ENV" "development" (mkSt configured_world fresh_writer []))
    = "production" /\
  fst (getEnvOrDefault "APP_NAME" "OpenShift Go Monolith"
         (mkSt configured_world fresh_writer []))
    = "OpenShift Go Monolith".
Proof.
  destruct (getEnvOrDefault_resolves "APP_ENV" "development"
              (mkSt configured_world fresh_writer [])) as (_ & Hset & _).
  destruct (getEnvOrDefault_resolves "APP_NAME" "OpenShift Go Monolith"
              (mkSt configured_world fresh_writer [])) as (_ & _ & Hunset).
  split.
  - apply Hset; [vm_compute; reflexivity | discriminate].
  - apply Hunset. left. vm_compute. reflexivity.
Defined.

(** C10. When the host name cannot be read, the write handler goes on as
    if the name were empty: it behaves exactly as it does when the lookup
    answers with the empty name, it succeeds when no call into the file
    system fails, and the report has nothing after the host name label. The
    info handler logs a warning and answers with the name [unknown]. *)
Theorem write_ignores_hostname_failure (a : Ambient) (r : Request) (w : World)
    (e : error) :
  hostname_answer a = inr e ->
  let s := serve ApiWrite a r w in
  s = serve ApiWrite (with_hostname_answer (inl "") a) r w /\
  (existsb io_failed (events s) = false ->
     status (writer s) = Some StatusOK /\
     files (filesys (world s)) !! log_path a = Some (report a r w)) /\
  report a r w = unlines (report_lines "" a r w) /\
  contains ("🏠 Hostname:         " +:+ nl +:+ "🌐 Client IP:        ") (report a r w) /\
  let si := serve ApiInfo a r w in
  In (EvLog ("[WARN] ⚠️ Failed to get hostname: " +:+ e)) (events si) /\
  (marshal_fault a = None ->
     exists info, body (writer si) = [Document (AppInfo_json info)] /\
                  Hostname info = "unknown").
Proof.
  intros Hhost s.
  assert (Hrep : report a r w = unlines (report_lines "" a r w))
    by (unfold report; by rewrite Hhost).
  split; [|split; [|split; [|split]]].
  - subst s. destruct a. cbn in Hhost. subst. reflexivity.
  - intros Hok. destruct (write_succeeded a r w Hok) as (Hst & Hfl & _).
    fold s in Hst, Hfl. split; [exact Hst|]. rewrite Hfl. apply lookup_insert_eq.
  - exact Hrep.
  - rewrite Hrep. unfold report_lines, logContent_lines.
    do 10 rewrite unlines_cons. do 16 apply contains_app_l.
    rewrite append_nil_r, (append_assoc "🌐 Client IP:        ").
    eexists "", _. by rewrite append_nil_l, !append_assoc.
  - cbv zeta. unfold serve, handler, infoHandler. unfold_monad. exec.
    rewrite Hhost. cbn [Os.Hostname]. exec.
    destruct (marshal_fault a) as [err|]; exec.
    + split; [cbn; tauto | done].
    + split; [cbn; tauto | intros _; eexists; split; reflexivity].
Qed.

Lemma write_ignores_hostname_failure_witness :
  status (writer (serve ApiWrite nameless sample_request fresh_world)) = Some StatusOK /\
  contains ("🏠 Hostname:         " +:+ nl +:+ "🌐 Client IP:        ")
    (report nameless sample_request fresh_world).
Proof.
  destruct (write_ignores_hostname_failure nameless sample_request fresh_world
              "open /proc/sys/kernel/hostname: permission denied" eq_refl)
    as (_ & Hok & _ & Hline & _).
  split; [|exact Hline].
  apply Hok. vm_compute. reflexivity.
Defined.

(** ** Further properties of the service *)

(** *** Lemmas on the handlers *)

(** A handler run after the events [evs] appends its own events and is
    otherwise not affected by them. *)
Lemma handler_after_events rt a r w rw evs :
  let s0 := snd (handler rt a r (mkSt w rw [])) in
  snd (handler rt a r (mkSt w rw evs))
  = mkSt (world s0) (writer s0) (evs ++ events s0).
Proof.
  cbv zeta. destruct rt.
  - unfold handler, infoHandler. unfold_monad. exec.
    destruct (Os.Hostname (hostname_answer a)) as [h [e|]]; exec;
      destruct (marshal_fault a); exec; unfold w_Write, on_writer; exec;
      rewrite <- ?app_assoc; reflexivity.
  - unfold handler, writeHandler.
    change (Format (now a 0) layout_stamp +:+ "-log.txt") with (log_name a);
      rewrite (Join_log_path a).
    unfold_monad. step.
    destruct (MkdirAll _ _ _) as [fs1 [e|]] eqn:Hmk; step.
    { rewrite <- ?app_assoc; reflexivity. }
    destruct (OpenFile _ _ _ _) as [fs2 [f|e]] eqn:Hop; step.
    2: { rewrite <- ?app_assoc; reflexivity. }
    rewrite (surjective_pairing (Os.Hostname _)); step. exec.
    destruct (WriteString _ _ _ _) as [fs3 [n [e|]]] eqn:Hwr; step;
      rewrite (surjective_pairing (Close f fs3)); step;
      rewrite <- ?app_assoc; reflexivity.
  - unfold handler, statsHandler. unfold_monad. exec.
    destruct (marshal_fault a); exec; unfold w_Write, on_writer; exec;
      rewrite <- ?app_assoc; reflexivity.
  - unfold handler, healthHandler. unfold_monad. exec.
    rewrite <- ?app_assoc; reflexivity.
Qed.

(** What one request does to the counters and the environment, and what the
    handlers that only read leave of the file system. *)
Lemma serve_step rt a r w :
  let s := serve rt a r w in
  requestCount (world s) = Int64.add (requestCount w) 1 /\
  writeCount (world s)
    = (if is_write (mkCall rt a r) then Int64.add (writeCount w) 1 else writeCount w) /\
  environ (world s) = environ w /\
  (is_write (mkCall rt a r) = false -> filesys (world s) = filesys w).
Proof.
  destruct rt; cbv zeta; cbn [is_write route].
  - unfold serve, handler, infoHandler. unfold_monad. exec.
    destruct (Os.Hostname (hostname_answer a)) as [h [e|]]; exec;
      destruct (marshal_fault a); exec; done.
  - destruct (writeHandler_counting a r w) as (-> & -> & -> & _). done.
  - unfold serve, handler, statsHandler. unfold_monad. exec.
    destruct (marshal_fault a); exec; done.
  - unfold serve, handler, healthHandler. unfold_monad. exec. done.
Qed.

(** What a write request leaves of the file system, however it went. *)
Lemma write_frame a r w :
  let after := filesys (world (serve ApiWrite a r w)) in
  fdtable after = fdtable (filesys w) /\
  dirs (filesys w) ⊆ dirs after /\
  dirs after ⊆ dirs (filesys w) ∪ {["data"; "data/log"]} /\
  (forall p, p <> log_path a -> files after !! p = files (filesys w) !! p) /\
  (is_Some (files (filesys w) !! log_path a) -> is_Some (files after !! log_path a)).
Proof.
  cbv zeta. set (s := serve ApiWrite a r w).
  pose proof (MkdirAll_frame (mkdir_fault a) "./data/log" (filesys w)) as (Hfl0 & Htb0 & Hup).
  pose proof (mkdir_each_adds (mkdir_fault a) (Filepath.ancestors "./data/log")
                (filesys w)) as Hadd.
  fold (MkdirAll (mkdir_fault a) "./data/log" (filesys w)) in Hadd.
  rewrite ancestors_logDir in Hadd.
  assert (Hadd' : dirs (fst (MkdirAll (mkdir_fault a) "./data/log" (filesys w)))
                    ⊆ dirs (filesys w) ∪ {["data"; "data/log"]}).
  { intros q Hq. apply Hadd in Hq. set_unfold. tauto. }
  write_cases a r w s; rewrite Hfs; rewrite Hmk in Hfl0, Htb0, Hup, Hadd';
    cbn [fst] in Hfl0, Htb0, Hup, Hadd'.
  - rewrite Hfl0. done.
  - apply OpenFile_refused in Hop as ->. rewrite Hfl0. done.
  - destruct (log_file_written a w fs1 fs2 f _ fs3 n _ Hmk Hop Hwr)
      as (Hfl & Htb & Hd & _).
    rewrite Hfl, Hd. repeat split; try done.
    + intros p Hp. by rewrite lookup_insert_ne.
    + intros _. rewrite lookup_insert_eq. eauto.
  - destruct (log_file_written a w fs1 fs2 f _ fs3 n _ Hmk Hop Hwr)
      as (Hfl & Htb & Hd & _).
    rewrite Hfl, Hd. repeat split; try done.
    + intros p Hp. by rewrite lookup_insert_ne.
    + intros _. rewrite lookup_insert_eq. eauto.
Qed.

(** The write through the descriptor of the log file fails exactly when the
    system refuses it. *)
Lemma write_error_iff a fs1 fs2 f data fs3 n err :
  OpenFile (open_fault a) (log_path a) create_trunc fs1 = (fs2, inl f) ->
  WriteString (write_fault a) f data fs2 = (fs3, (n, err)) ->
  err = None <-> write_fault a = None.
Proof.
  intros Hop Hwr. apply OpenFile_create_trunc in Hop as (_ & _ & _ & ->).
  rewrite Clean_log_path in Hwr.
  rewrite (WriteString_fresh _ _ _ _ _ _ (log_path a)) in Hwr
    by (simpl; apply lookup_insert_eq).
  injection Hwr as _ _ <-. by destruct (write_fault a) as [[k e]|].
Qed.

(** The outcome of a write request in terms of what the system does. *)
Lemma write_outcome a r w :
  let s := serve ApiWrite a r w in
  status (writer s)
    = Some (if volume_accepts a w then StatusOK else StatusInternalServerError) /\
  dirs (filesys (world s))
    = dirs (fst (MkdirAll (mkdir_fault a) "./data/log" (filesys w))) /\
  (is_Some (files (filesys (world s)) !! log_path a) <->
   log_file_opened a w = true \/ is_Some (files (filesys w) !! log_path a)).
Proof.
  intros s. unfold volume_accepts, log_file_opened.
  pose proof (MkdirAll_frame (mkdir_fault a) "./data/log" (filesys w)) as (Hfl0 & _).
  write_cases a r w s; rewrite Hfs, Hw, Hmk; rewrite Hmk in Hfl0; cbn [fst] in Hfl0.
  - rewrite Hfl0. split; [done|]. split; [done|]. split; [tauto | by intros [?|?]].
  - rewrite Hop. apply OpenFile_refused in Hop as ->. rewrite Hfl0.
    split; [done|]. split; [done|]. split; [tauto | by intros [?|?]].
  - rewrite Hop.
    destruct (log_file_written a w fs1 fs2 f _ fs3 n _ Hmk Hop Hwr)
      as (Hfl & _ & Hd & _).
    destruct (write_error_iff a fs1 fs2 f _ fs3 n _ Hop Hwr) as [_ Hnone].
    rewrite Hfl, Hd, lookup_insert_eq.
    destruct (write_fault a); [|by specialize (Hnone eq_refl)].
    split; [done|]. split; [done|]. split; eauto.
  - rewrite Hop.
    destruct (log_file_written a w fs1 fs2 f _ fs3 n _ Hmk Hop Hwr)
      as (Hfl & _ & Hd & _).
    destruct (write_error_iff a fs1 fs2 f _ fs3 n _ Hop Hwr) as [Hnone _].
    rewrite Hfl, Hd, lookup_insert_eq, (Hnone eq_refl).
    split; [done|]. split; [done|]. split; eauto.
Qed.

(** With a file in the way, the directory cannot be made and nothing is
    changed. *)
Lemma MkdirAll_blocked fault fs :
  file_in_the_way fs -> exists e, MkdirAll fault "./data/log" fs = (fs, Some e).
Proof.
  unfold MkdirAll. rewrite ancestors_logDir. cbn [mkdir_each].
  intros [[Hnd Hf] | (Hd & Hnd & Hf)].
  - rewrite decide_False by done. rewrite decide_True by done. eauto.
  - rewrite decide_True by done. rewrite decide_False by done.
    rewrite decide_True by done. eauto.
Qed.

(** *** Lemmas on time stamps *)

Lemma digit_inj (n m : Z) : digit n = digit m -> n mod 10 = m mod 10.
Proof.
  unfold digit. intros H. apply (f_equal nat_of_ascii) in H.
  pose proof (Z.mod_pos_bound n 10). pose proof (Z.mod_pos_bound m 10).
  rewrite !nat_ascii_embedding in H by lia. lia.
Qed.

Lemma String_inj (c1 c2 : ascii) (s1 s2 : string) :
  String c1 s1 = String c2 s2 -> c1 = c2 /\ s1 = s2.
Proof. by intros [= -> ->]. Qed.

Lemma digits2_split (n m : Z) (s t : string) :
  0 <= n <= 99 -> 0 <= m <= 99 ->
  digits2 n +:+ s = digits2 m +:+ t -> n = m /\ s = t.
Proof.
  intros Hn Hm. unfold digits2. rewrite !append_cons, !append_nil_l.
  intros H. apply String_inj in H as [H1 H]. apply String_inj in H as [H2 H].
  apply digit_inj in H1, H2. split; [|exact H].
  Z.div_mod_to_equations. lia.
Qed.

Lemma digits4_split (n m : Z) (s t : string) :
  0 <= n <= 9999 -> 0 <= m <= 9999 ->
  digits4 n +:+ s = digits4 m +:+ t -> n = m /\ s = t.
Proof.
  intros Hn Hm. unfold digits4, digits2. rewrite !append_cons, !append_nil_l.
  intros H. apply String_inj in H as [H1 H]. apply String_inj in H as [H2 H].
  apply String_inj in H as [H3 H]. apply String_inj in H as [H4 H].
  apply digit_inj in H1, H2, H3, H4. split; [|exact H].
  Z.div_mod_to_equations. lia.
Qed.

(** The stamp of a log file name tells the second it was taken in. *)
Lemma stamp_tells_second (t1 t2 : Time) :
  GoTime.valid t1 -> GoTime.valid t2 ->
  Format t1 layout_stamp = Format t2 layout_stamp -> wall_clock t1 = wall_clock t2.
Proof.
  intros Hv1 Hv2. rewrite !Format_stamp_valid by done.
  destruct Hv1 as (Hy1 & Hm1 & Hd1 & Hh1 & Hn1 & Hs1).
  destruct Hv2 as (Hy2 & Hm2 & Hd2 & Hh2 & Hn2 & Hs2).
  unfold YYYYMMDD_HHMMSS, wall_clock. intros H.
  apply digits4_split in H as [-> H]; [|lia..].
  apply digits2_split in H as [-> H]; [|lia..].
  apply digits2_split in H as [-> H]; [|lia..].
  rewrite !append_cons, !append_nil_l in H. apply String_inj in H as [_ H].
  apply digits2_split in H as [-> H]; [|lia..].
  apply digits2_split in H as [-> H]; [|lia..].
  rewrite <- (append_nil_r (digits2 (second t1))) in H.
  rewrite <- (append_nil_r (digits2 (second t2))) in H.
  apply digits2_split in H as [-> _]; [|lia..].
  reflexivity.
Qed.

Lemma append_inj_l (s t1 t2 : string) : s +:+ t1 = s +:+ t2 -> t1 = t2.
Proof.
  induction s as [|c s IH]; [done|]. rewrite !append_cons.
  intros H. apply String_inj in H as [_ H]. by apply IH.
Qed.

Lemma append_inj_r (s1 s2 t : string) :
  String.length s1 = String.length s2 -> s1 +:+ t = s2 +:+ t -> s1 = s2.
Proof.
  revert s2. induction s1 as [|c s1 IH]; intros [|c2 s2] Hlen; try done.
  rewrite !append_cons. intros H. apply String_inj in H as [-> H].
  f_equal. apply IH; [by injection Hlen | done].
Qed.

(** *** Lemmas on runs of requests *)

Lemma length_writes_le (calls : list Call) :
  (length (List.filter is_write calls) <= length calls)%nat.
Proof.
  induction calls as [|c calls IH]; [done|]. cbn [List.filter].
  destruct (is_write c); cbn [length]; lia.
Qed.

Lemma serve_all_counters calls : forall w,
  Int64.in_range (requestCount w) ->
  Int64.in_range (writeCount w) ->
  requestCount w + Z.of_nat (length calls) <= Int64.max_int ->
  writeCount w + Z.of_nat (length (List.filter is_write calls)) <= Int64.max_int ->
  requestCount (serve_all calls w) = requestCount w + Z.of_nat (length calls) /\
  writeCount (serve_all calls w)
    = writeCount w + Z.of_nat (length (List.filter is_write calls)).
Proof.
  induction calls as [|[rt a r] calls IH]; intros w Hrc Hwc Hrn Hwn.
  { cbn. lia. }
  cbn [serve_all route ambient request].
  destruct (serve_step rt a r w) as (Hrc1 & Hwc1 & _).
  cbn [List.filter length] in *.
  rewrite Int64_add_one in Hrc1 by (done || lia).
  unfold Int64.in_range in *.
  destruct (is_write (mkCall rt a r)); cbn [length] in *.
  - rewrite Int64_add_one in Hwc1 by (done || lia).
    destruct (IH (world (serve rt a r w))) as [-> ->]; lia.
  - destruct (IH (world (serve rt a r w))) as [-> ->]; lia.
Qed.

(** *** Lemmas on the start of the process *)

Lemma resolve_unfold env key defaultValue :
  resolve env key defaultValue
  = if String.eqb (Getenv env key) "" then defaultValue else Getenv env key.
Proof.
  unfold resolve, getEnvOrDefault, os_Getenv, on_world, mbind, M_bind, mret, M_ret.
  cbn [world writer events fst environ]. by destruct (String.eqb _ _).
Qed.

Lemma IsNotExist_true err : IsNotExist err = true <-> err = Some NotExist.
Proof. destruct err as [[|e]|]; cbn; split; congruence. Qed.

(** Runs [main] up to its next branch. *)
Ltac run_main :=
  lazy beta iota zeta delta
    [start main initLogger godotenv_Load os_Stat logger_Println logger_Printf emit
     on_world mbind M_bind mret M_ret world writer events fst snd app];
  cbn [requestCount writeCount environ filesys];
  repeat (rewrite getEnvOrDefault_run;
          lazy beta iota zeta delta
            [logger_Printf emit on_world mbind M_bind mret M_ret world writer events
             fst snd app];
          cbn [requestCount writeCount environ filesys]).

(** Settles that a line is not among the lines [H] lists, but for one. *)
Ltac log_lines H :=
  cbn [In] in H;
  repeat (destruct H as [H|H]; [try discriminate H|]);
  try contradiction.

(** The start of the process, step by step. *)
Lemma start_run b a w :
  let s := snd (start b a w) in
  let missing := IsNotExist (Stat (stat_fault b) "./data/log" (filesys w)) in
  fst (start b a w) = match listen_error b with
                      | Some _ => Some 1
                      | None => None
                      end /\
  environ (world s) = environ_loaded b w /\
  (requestCount (world s) = requestCount w /\ writeCount (world s) = writeCount w /\
   filesys (world s) = filesys w /\ writer s = fresh_writer) /\
  (In (EvLog "[WARN] 📁 Data directory ./data/log does not exist, will be created on first write")
      (events s) <-> missing = true) /\
  (In (EvLog "[INFO] ✅ Data directory ./data/log exists and is accessible")
      (events s) <-> missing = false).
Proof.
  cbv zeta. unfold environ_loaded. run_main.
  destruct (dotenv b) as [vars|e]; run_main;
    destruct (Os.Hostname (hostname_answer a)) as [h [e'|]]; run_main;
    destruct (IsNotExist _) eqn:Hstat; run_main;
    destruct (listen_error b); run_main;
    (split; [reflexivity|]); (split; [reflexivity|]); (split; [done|]);
    (split; (split; [intros H; log_lines H; reflexivity
                    | intros H; try discriminate H; cbn [In]; tauto])).
Qed.

(** *** The handlers *)

(** X1. The info handler answers with status 200, the content type
    [application/json] and one document: the application name, the
    environment and the database user as [getEnvOrDefault] resolves them,
    the version 1.1.0, the host name ([unknown] when it cannot be read) and
    the current time. When the document cannot be encoded, it logs the
    error and answers with status 500 and the plain text
    [Internal server error], without the error. Either way it leaves the
    file system alone. *)
Theorem infoHandler_response (a : Ambient) (r : Request) (w : World) :
  let s := serve ApiInfo a r w in
  let hostname := match hostname_answer a with
                  | inl name => name
                  | inr _ => "unknown"
                  end in
  match marshal_fault a with
  | None =>
      status (writer s) = Some StatusOK /\
      header (writer s) !! "Content-Type" = Some "application/json" /\
      body (writer s) =
        [Document
           [("app_name", JString (resolve (environ w) "APP_NAME" "OpenShift Go Monolith"));
            ("environment", JString (resolve (environ w) "APP_ENV" "development"));
            ("db_user", JString (resolve (environ w) "DB_USER" "not_configured"));
            ("version", JString "1.1.0");
            ("hostname", JString hostname);
            ("timestamp", JTime (now a 0))]]
  | Some e =>
      status (writer s) = Some StatusInternalServerError /\
      header (writer s) !! "Content-Type" = Some "text/plain; charset=utf-8" /\
      body (writer s) = [Text ("Internal server error" +:+ nl)] /\
      In (EvLog ("[ERROR] 💥 Failed to encode JSON response: " +:+ e)) (events s)
  end /\
  filesys (world s) = filesys w /\
  List.filter is_io (events s) = [].
Proof.
  cbv zeta. unfold serve, handler, infoHandler. unfold_monad. exec.
  destruct (hostname_answer a) as [h|e]; cbn [Os.Hostname]; exec;
    destruct (marshal_fault a); exec; unfold w_Write, on_writer; exec.
  all: repeat split; try reflexivity; cbn [In]; tauto.
Qed.

(** X2. When a call of the write handler into the file system fails, the
    body of the response is the name of the step that failed followed by
    the error of that call, the error is also logged, and the response is
    plain text with status 500 and [nosniff]. *)
Theorem write_failure_names_step (a : Ambient) (r : Request) (w : World) :
  let s := serve ApiWrite a r w in
  (forall path e, In (EvMkdirAll path (Some e)) (events s) ->
     body (writer s) = [Text ("Failed to create log directory: " +:+ e +:+ nl)] /\
     In (EvLog ("[ERROR] 🚨 Failed to create log directory ./data/log: " +:+ e))
       (events s)) /\
  (forall path flag e, In (EvOpenFile path flag (inr e)) (events s) ->
     body (writer s) = [Text ("Failed to create log file: " +:+ e +:+ nl)] /\
     In (EvLog ("[ERROR] 💥 Failed to create log file " +:+ log_path a +:+ ": " +:+ e))
       (events s)) /\
  (forall f data n e, In (EvWriteString f data (n, Some e)) (events s) ->
     body (writer s) = [Text ("Failed to write log content: " +:+ e +:+ nl)] /\
     In (EvLog ("[ERROR] 😱 Failed to write content to log file " +:+ log_path a
                  +:+ ": " +:+ e))
       (events s)) /\
  (existsb io_failed (events s) = true ->
     status (writer s) = Some StatusInternalServerError /\
     header (writer s) !! "Content-Type" = Some "text/plain; charset=utf-8" /\
     header (writer s) !! "X-Content-Type-Options" = Some "nosniff").
Proof.
  cbv zeta. run_writeHandler a r w.
  - repeat split; try (intros; cbn [In] in *; intuition (simplify_eq; eauto)).
  - destruct (WriteString _ _ _ _) as [fs3 [n [e|]]] eqn:Hwr; step;
      rewrite (surjective_pairing (Close f fs3)); step.
    + repeat split; try (intros; cbn [In] in *; intuition (simplify_eq; eauto)).
    + repeat split; try (intros; cbn [In] in *; intuition (simplify_eq; eauto)).
  - repeat split; try (intros; cbn [In] in *; intuition (simplify_eq; eauto)).
Qed.



(** X4. The write handler does not look at the request to decide what to
    do: whatever the method, the path, the client and the user agent, the
    same system gives the same status, the same counters, the same
    directories and the same set of files; only the text of the report
    differs. A GET is served like a POST. *)
Theorem write_outcome_ignores_request (a : Ambient) (r r' : Request) (w : World) :
  let s := serve ApiWrite a r w in
  let s' := serve ApiWrite a r' w in
  status (writer s) = status (writer s') /\
  requestCount (world s) = requestCount (world s') /\
  writeCount (world s) = writeCount (world s') /\
  dirs (filesys (world s)) = dirs (filesys (world s')) /\
  (forall p, is_Some (files (filesys (world s)) !! p)
             <-> is_Some (files (filesys (world s')) !! p)) /\
  (forall p, p <> log_path a ->
     files (filesys (world s)) !! p = files (filesys (world s')) !! p).
Proof.
  intros s s'.
  destruct (write_outcome a r w) as (Hst & Hd & Hf).
  destruct (write_outcome a r' w) as (Hst' & Hd' & Hf').
  destruct (writeHandler_counting a r w) as (Hrc & Hwc & _).
  destruct (writeHandler_counting a r' w) as (Hrc' & Hwc' & _).
  destruct (write_frame a r w) as (_ & _ & _ & Hch & _).
  destruct (write_frame a r' w) as (_ & _ & _ & Hch' & _).
  fold s in Hst, Hd, Hf, Hrc, Hwc, Hch. fold s' in Hst', Hd', Hf', Hrc', Hwc', Hch'.
  clearbody s s'. rewrite Hst, Hst', Hd, Hd', Hrc, Hrc', Hwc, Hwc'.
  do 4 (split; [reflexivity|]). split.
  - intros p. destruct (decide (p = log_path a)) as [->|Hne]; [tauto|].
    by rewrite Hch, Hch'.
  - intros p Hp. by rewrite Hch, Hch'.
Qed.

(** X5. Two write requests whose clock readings differ in the date or in
    the time of day to the second write to different files: the second
    request leaves the file of the first as it was, and when both succeed
    both reports are on the volume. *)
Theorem writes_in_different_seconds (a1 a2 : Ambient) (r1 r2 : Request) (w : World) :
  let s1 := serve ApiWrite a1 r1 w in
  let s2 := serve ApiWrite a2 r2 (world s1) in
  GoTime.valid (now a1 0) ->
  GoTime.valid (now a2 0) ->
  wall_clock (now a1 0) <> wall_clock (now a2 0) ->
  log_path a1 <> log_path a2 /\
  (existsb io_failed (events s1) = false ->
   files (filesys (world s2)) !! log_path a1 = Some (report a1 r1 w) /\
   (existsb io_failed (events s2) = false ->
    files (filesys (world s2))
      = <[log_path a2 := report a2 r2 (world s1)]>
          (<[log_path a1 := report a1 r1 w]> (files (filesys w))))).
Proof.
  intros s1 s2 Hv1 Hv2 Hclock.
  assert (Hne : log_path a1 <> log_path a2).
  { intros Heq. apply Hclock, stamp_tells_second; try done.
    unfold log_path, log_name in Heq. apply append_inj_l in Heq.
    apply append_inj_r in Heq; [done|].
    rewrite !Format_stamp_valid by done. reflexivity. }
  split; [exact Hne|]. intros Hok1.
  destruct (write_succeeded a1 r1 w Hok1) as (_ & Hfl1 & _). fold s1 in Hfl1.
  destruct (write_frame a2 r2 (world s1)) as (_ & _ & _ & Hch & _). fold s2 in Hch.
  split.
  - rewrite Hch by done. rewrite Hfl1. apply lookup_insert_eq.
  - intros Hok2. destruct (write_succeeded a2 r2 (world s1) Hok2) as (_ & Hfl2 & _).
    fold s2 in Hfl2. by rewrite Hfl2, Hfl1.
Qed.

Lemma writes_in_different_seconds_witness :
  files (filesys (world (serve ApiWrite a_second_later second_request
                           (world (serve ApiWrite calm sample_request fresh_world)))))
    !! log_path calm
  = Some (report calm sample_request fresh_world).
Proof.
  assert (Hv1 : GoTime.valid (now calm 0)) by (unfold GoTime.valid; simpl; lia).
  assert (Hv2 : GoTime.valid (now a_second_later 0))
    by (unfold GoTime.valid; simpl; lia).
  assert (Hclock : wall_clock (now calm 0) <> wall_clock (now a_second_later 0))
    by discriminate.
  assert (Hok : existsb io_failed
                  (events (serve ApiWrite calm sample_request fresh_world)) = false)
    by (vm_compute; reflexivity).
  destruct (writes_in_different_seconds calm a_second_later sample_request
              second_request fresh_world Hv1 Hv2 Hclock) as [_ Hboth].
  exact (proj1 (Hboth Hok)).
Defined.

(** X15. When a regular file stands where [data] or [data/log] should be,
    a write request is answered with status 500 after the one attempt to
    make the directory: it opens no file and changes nothing, so the file is
    still in the way of the next request. *)
Theorem write_blocked_by_file (a : Ambient) (r : Request) (w : World) :
  file_in_the_way (filesys w) ->
  let s := serve ApiWrite a r w in
  status (writer s) = Some StatusInternalServerError /\
  (exists e, List.filter is_io (events s) = [EvMkdirAll "./data/log" (Some e)]) /\
  filesys (world s) = filesys w /\
  file_in_the_way (filesys (world s)).
Proof.
  intros Hway s.
  destruct (MkdirAll_blocked (mkdir_fault a) (filesys w) Hway) as [e0 Hblocked].
  write_cases a r w s; rewrite Hblocked in Hmk; try discriminate Hmk.
  injection Hmk as <- <-. rewrite Hfs, Hw, Hio. eauto.
Qed.

Lemma write_blocked_by_file_witness :
  status (writer (serve ApiWrite calm sample_request blocked_world))
    = Some StatusInternalServerError /\
  filesys (world (serve ApiWrite calm sample_request blocked_world))
    = filesys blocked_world.
Proof.
  assert (Hway : file_in_the_way (filesys blocked_world)).
  { left. split; [by vm_compute | by eexists]. }
  destruct (write_blocked_by_file calm sample_request blocked_world Hway)
    as (Hst & _ & Hfs & _).
  split; [exact Hst | exact Hfs].
Defined.

(** X6. The stats handler answers with status 200, the content type
    [application/json] and one document whose request count includes the
    stats request itself and whose write count is the counter as it
    stands. When the document cannot be encoded, it logs the error and
    answers with status 500 and the plain text [Internal server error].
    Either way it leaves the file system alone. *)
Theorem statsHandler_response (a : Ambient) (r : Request) (w : World) :
  let s := serve ApiStats a r w in
  match marshal_fault a with
  | None =>
      status (writer s) = Some StatusOK /\
      header (writer s) !! "Content-Type" = Some "application/json" /\
      body (writer s) =
        [Document
           [("uptime", JString (uptime a));
            ("total_requests", JNumber (requestCount (world s)));
            ("write_operations", JNumber (writeCount w));
            ("go_version", JString (go_version a));
            ("goroutines", JNumber (num_goroutine a));
            ("memory_alloc_mb", JNumber (getMemoryUsageMB a));
            ("server_time", JString (Format (now a 0) RFC3339))]]
  | Some e =>
      status (writer s) = Some StatusInternalServerError /\
      header (writer s) !! "Content-Type" = Some "text/plain; charset=utf-8" /\
      body (writer s) = [Text ("Internal server error" +:+ nl)] /\
      In (EvLog ("[ERROR] 😱 Failed to encode stats JSON: " +:+ e)) (events s)
  end /\
  requestCount (world s) = Int64.add (requestCount w) 1 /\
  filesys (world s) = filesys w /\
  List.filter is_io (events s) = [].
Proof.
  cbv zeta. unfold serve, handler, statsHandler. unfold_monad. exec.
  destruct (marshal_fault a); exec; unfold w_Write, on_writer; exec.
  all: repeat split; try reflexivity; cbn [In]; tauto.
Qed.

(** X7. [getMemoryUsageMB] rounds the allocated bytes down to whole
    mebibytes: less than one mebibyte is reported as 0. *)
Theorem getMemoryUsageMB_rounds_down (a : Ambient) :
  0 <= mem_alloc a ->
  0 <= getMemoryUsageMB a /\
  getMemoryUsageMB a * 1048576 <= mem_alloc a < (getMemoryUsageMB a + 1) * 1048576.
Proof.
  intros Hpos. unfold getMemoryUsageMB. rewrite Z.div_div by lia.
  change (1024 * 1024) with 1048576.
  pose proof (Z.div_mod (mem_alloc a) 1048576).
  pose proof (Z.mod_pos_bound (mem_alloc a) 1048576).
  split; [apply Z.div_pos; lia | lia].
Qed.

Lemma getMemoryUsageMB_rounds_down_witness :
  0 <= mem_alloc calm /\
  getMemoryUsageMB calm * 1048576 <= mem_alloc calm < (getMemoryUsageMB calm + 1) * 1048576.
Proof.
  assert (Hpos : 0 <= mem_alloc calm) by (vm_compute; discriminate).
  split; [exact Hpos|].
  exact (proj2 (getMemoryUsageMB_rounds_down calm Hpos)).
Defined.

(** X8. Every request to one of the four handlers is answered once, with
    status 200 or 500; the status is 500 exactly when a call of the request
    into the file system failed or the handler's JSON document could not be
    encoded. *)
Theorem request_answered_once (rt : Route) (a : Ambient) (r : Request) (w : World) :
  let s := serve rt a r w in
  length (body (writer s)) = 1%nat /\
  (status (writer s) = Some StatusOK \/
   status (writer s) = Some StatusInternalServerError) /\
  (status (writer s) = Some StatusInternalServerError <->
   existsb io_failed (events s) = true \/
   (encodes rt = true /\ is_Some (marshal_fault a))).
Proof.
  destruct rt; cbv zeta; cbn [encodes].
  - unfold serve, handler, infoHandler. unfold_monad. exec.
    destruct (Os.Hostname (hostname_answer a)) as [h [e|]]; exec;
      destruct (marshal_fault a) as [err|]; exec; unfold w_Write, on_writer; exec;
      (split; [reflexivity|]); cbn [existsb io_failed orb].
    1,3: split; [by right|]; split; [eauto | done].
    all: split; [by left|]; split; [done|]; intros [? | [_ [? ?]]]; done.
  - set (s := serve ApiWrite a r w).
    rewrite <- (existsb_io_filter io_failed) by apply io_failed_is_io.
    write_cases a r w s; rewrite Hw, Hio; cbn [existsb io_failed orb].
    1-3: split; [reflexivity|]; split; [by right|]; split; [eauto | done].
    split; [reflexivity|]. split; [by left|]. split; [done|].
    intros [? | [? _]]; done.
  - unfold serve, handler, statsHandler. unfold_monad. exec.
    destruct (marshal_fault a) as [err|]; exec; unfold w_Write, on_writer; exec;
      (split; [reflexivity|]); cbn [existsb io_failed orb].
    + split; [by right|]; split; [eauto | done].
    + split; [by left|]; split; [done|]; intros [? | [_ [? ?]]]; done.
  - unfold serve, handler, healthHandler. unfold_monad. exec.
    split; [reflexivity|]. cbn [existsb io_failed orb].
    split; [by left|]. split; [done|]. intros [? | [? _]]; done.
Qed.

(** *** Runs of requests *)

(** X9. After any run of requests served one after the other, the request
    counter has grown by the number of requests and the write counter by
    the number of write requests, failed ones included, as long as neither
    passes the largest [int64]; the write counter never overtakes the
    request counter. *)
Theorem serve_all_counts (calls : list Call) (w : World) :
  Int64.in_range (requestCount w) ->
  Int64.in_range (writeCount w) ->
  requestCount w + Z.of_nat (length calls) <= Int64.max_int ->
  writeCount w + Z.of_nat (length (List.filter is_write calls)) <= Int64.max_int ->
  requestCount (serve_all calls w) = requestCount w + Z.of_nat (length calls) /\
  writeCount (serve_all calls w)
    = writeCount w + Z.of_nat (length (List.filter is_write calls)) /\
  (writeCount w <= requestCount w ->
   writeCount (serve_all calls w) <= requestCount (serve_all calls w)).
Proof.
  intros Hrc Hwc Hrn Hwn.
  destruct (serve_all_counters calls w Hrc Hwc Hrn Hwn) as [-> ->].
  repeat split. pose proof (length_writes_le calls). lia.
Qed.

Lemma serve_all_counts_witness :
  requestCount (serve_all sample_calls fresh_world) = 0 + 5 /\
  writeCount (serve_all sample_calls fresh_world) = 0 + 2.
Proof.
  assert (Hr : Int64.in_range 0) by (vm_compute; split; discriminate).
  assert (Hn : 0 + 5 <= Int64.max_int) by (vm_compute; discriminate).
  assert (Hk : 0 + 2 <= Int64.max_int) by (vm_compute; discriminate).
  destruct (serve_all_counts sample_calls fresh_world Hr Hr Hn Hk) as (Hrc & Hwc & _).
  split; [exact Hrc | exact Hwc].
Defined.

(** X10. Whatever requests are served and however they go, the service
    keeps the environment and the table of open descriptors as they were,
    removes no directory and no file, adds no directory other than [data]
    and [data/log], and changes files directly under [data/log] only. A run
    without a write request leaves the file system as it was. *)
Theorem serve_all_keeps (calls : list Call) (w : World) :
  let before := filesys w in
  let after := filesys (serve_all calls w) in
  environ (serve_all calls w) = environ w /\
  fdtable after = fdtable before /\
  dirs before ⊆ dirs after /\
  dirs after ⊆ dirs before ∪ {["data"; "data/log"]} /\
  (forall p, is_Some (files before !! p) -> is_Some (files after !! p)) /\
  (forall p, files after !! p <> files before !! p ->
     exists name, p = "data/log/" +:+ name /\ no_slash name = true) /\
  (existsb is_write calls = false -> after = before).
Proof.
  cbv zeta. revert w. induction calls as [|[rt a r] calls IH]; intros w.
  { cbn [serve_all]. repeat split; try done. apply union_subseteq_l. }
  cbn [serve_all route ambient request existsb].
  destruct (IH (world (serve rt a r w))) as (He & Ht & Hd1 & Hd2 & Hkeep & Hch & Hro).
  destruct (serve_step rt a r w) as (_ & _ & He1 & Hro1).
  destruct (is_write (mkCall rt a r)) eqn:Hwr.
  - destruct rt; try discriminate Hwr.
    destruct (write_frame a r w) as (Ht1 & Hd3 & Hd4 & Hch1 & Hkeep1).
    rewrite He, Ht, He1, Ht1. repeat split; try done.
    + intros q Hq. apply Hd1, Hd3, Hq.
    + intros q Hq. apply Hd2, elem_of_union in Hq as [Hq|Hq].
      * apply Hd4, Hq.
      * apply elem_of_union_r, Hq.
    + intros p Hp. apply Hkeep.
      destruct (decide (p = log_path a)) as [->|Hne]; [by apply Hkeep1|].
      by rewrite Hch1.
    + intros p Hp.
      destruct (decide (p = log_path a)) as [->|Hne].
      { exists (log_name a). split; [reflexivity | apply log_name_no_slash]. }
      apply Hch. by rewrite Hch1.
  - specialize (Hro1 eq_refl). rewrite He, Ht, He1, Hro1.
    rewrite Hro1 in Hd1, Hd2, Hkeep, Hch, Hro. cbn [orb]. done.
Qed.

(** *** The middleware *)

(** X11. The logging middleware only logs: around each of the four
    handlers it leaves the process and the response exactly as the handler
    alone does, and the events are the request line, the handler's events
    and the completion line. *)
Theorem loggingMiddleware_only_logs (rt : Route) (duration : string) (a : Ambient)
    (r : Request) (w : World) :
  let s := serve rt a r w in
  let logged :=
    snd (loggingMiddleware (handler rt) duration a r (mkSt w fresh_writer [])) in
  world logged = world s /\
  writer logged = writer s /\
  events logged =
    EvLog ("[REQUEST] 🌐 " +:+ Method r +:+ " " +:+ URL_Path r +:+ " from "
             +:+ RemoteAddr r +:+ " - User-Agent: " +:+ UserAgent r)
    :: events s
    ++ [EvLog ("[RESPONSE] ⚡ " +:+ Method r +:+ " " +:+ URL_Path r
                 +:+ " completed in " +:+ duration +:+ " - speedrun any%")].
Proof.
  cbv zeta. unfold loggingMiddleware, logger_Printf, emit.
  unfold mbind, M_bind. step.
  rewrite (surjective_pairing (handler rt a r _)).
  rewrite handler_after_events. step. done.
Qed.

(** *** The start of the process *)

(** X13. The variables of [.env] never override the environment the
    process was started with: a variable that is set keeps its value, a
    variable that is not set gets the value [.env] gives it, if any. So a
    variable that is set but empty resolves to the built-in default of
    [getEnvOrDefault], whatever [.env] says. *)
Theorem dotenv_never_overrides (b : Boot) (a : Ambient) (w : World) :
  let s := snd (start b a w) in
  (forall key value, environ w !! key = Some value ->
     environ (world s) !! key = Some value) /\
  (forall key, environ w !! key = None ->
     environ (world s) !! key = match dotenv b with
                                | inl vars => vars !! key
                                | inr _ => None
                                end) /\
  (forall key defaultValue, is_Some (environ w !! key) ->
     resolve (environ (world s)) key defaultValue
     = resolve (environ w) key defaultValue) /\
  (forall key defaultValue, environ w !! key = Some "" ->
     resolve (environ (world s)) key defaultValue = defaultValue).
Proof.
  cbv zeta. destruct (start_run b a w) as (_ & -> & _). unfold environ_loaded.
  assert (Hkeep : forall key value, environ w !! key = Some value ->
            match dotenv b with
            | inl vars => environ w ∪ vars
            | inr _ => environ w
            end !! key = Some value).
  { intros key value Hk. destruct (dotenv b) as [vars|e]; [|done].
    by apply lookup_union_Some_l. }
  split; [exact Hkeep|]. split; [|split].
  - intros key Hk. destruct (dotenv b) as [vars|e]; [|done].
    by rewrite lookup_union_r.
  - intros key def [value Hk]. rewrite !resolve_unfold. unfold Getenv.
    by rewrite (Hkeep _ _ Hk), Hk.
  - intros key def Hk. rewrite resolve_unfold. unfold Getenv.
    by rewrite (Hkeep _ _ Hk).
Qed.

(** X14. At its start the process warns that the data directory does not
    exist exactly when [os.Stat] reports that nothing has that name; in
    every other case, also when [os.Stat] is refused or a file stands in
    the way, it logs that the directory exists and is accessible. The start
    creates nothing and counts nothing, and the process exits, with
    status 1, only when [http.ListenAndServe] returns an error. *)
Theorem start_reports_data_directory (b : Boot) (a : Ambient) (w : World) :
  let s := snd (start b a w) in
  let found := Stat (stat_fault b) "./data/log" (filesys w) in
  let warning :=
    EvLog "[WARN] 📁 Data directory ./data/log does not exist, will be created on first write" in
  let accessible :=
    EvLog "[INFO] ✅ Data directory ./data/log exists and is accessible" in
  (In warning (events s) <-> found = Some NotExist) /\
  (In accessible (events s) <-> found <> Some NotExist) /\
  (is_Some (stat_fault b) -> In accessible (events s)) /\
  filesys (world s) = filesys w /\
  requestCount (world s) = requestCount w /\
  writeCount (world s) = writeCount w /\
  fst (start b a w) = match listen_error b with
                      | Some _ => Some 1
                      | None => None
                      end.
Proof.
  cbv zeta.
  destruct (start_run b a w) as (Hexit & _ & (Hrc & Hwc & Hfs & _) & Hwarn & Hacc).
  cbv zeta in Hwarn, Hacc. rewrite IsNotExist_true in Hwarn.
  assert (Hacc' : In (EvLog "[INFO] ✅ Data directory ./data/log exists and is accessible")
                    (events (snd (start b a w)))
                  <-> Stat (stat_fault b) "./data/log" (filesys w) <> Some NotExist).
  { rewrite Hacc, <- IsNotExist_true. by destruct (IsNotExist _). }
  repeat split; try done; try apply Hwarn; try apply Hacc'.
  intros [e He]. apply Hacc'. unfold Stat. by rewrite He.
Qed.
